(** * noterer: the confirmation-driven conversation controller

    A shallow embedding of [backend/ai/conversation_controller.py] (with the
    error contract of [backend/ai/manager.py]) and the properties of its
    turn-based state machine, its action-proposal extractor and its action
    dispatcher. *)

From Stdlib Require Import ZArith Lia Floats.SpecFloat Numbers.DecimalString.
From stdpp Require Import gmap list strings.

Set Default Proof Using "Type".
Set Warnings "-register-all".

(** ** Python strings

    A Python [str] is a sequence of Unicode code points. *)

Abbreviation pystr := (list N).

(** A literal of the source text, as code points. *)
Definition py (s : string) : pystr :=
  map Ascii.N_of_ascii (String.list_ascii_of_string s).

(** [s.startswith(sub)]. *)
Fixpoint starts_with (sub s : pystr) : bool :=
  match sub, s with
  | [], _ => true
  | _ :: _, [] => false
  | c :: sub', d :: s' => (c =? d)%N && starts_with sub' s'
  end.

(** The scan of [str.find]: [s] is the text from index [i] on. *)
Fixpoint find_from (sub s : pystr) (i : nat) : option nat :=
  if starts_with sub s then Some i
  else match s with
       | [] => None
       | _ :: s' => find_from sub s' (S i)
       end.

(** [s.find(sub, start)]: the lowest index at or after [start] where [sub]
    occurs; [None] stands for the result [-1]. *)
Definition find (s sub : pystr) (start : nat) : option nat :=
  if (length s <? start)%nat then None else find_from sub (drop start s) start.

(** [s[a:b]] for indices [0 <= a], [0 <= b]. *)
Definition slice (s : pystr) (a b : nat) : pystr := take (b - a) (drop a s).

(** The characters [str.strip()] removes: those Python classifies as
    whitespace. *)
Definition isspace (c : N) : bool :=
  ((9 <=? c) && (c <=? 13) || (28 <=? c) && (c <=? 32)
   || (c =? 133) || (c =? 160) || (c =? 5760)
   || (8192 <=? c) && (c <=? 8202)
   || (c =? 8232) || (c =? 8233) || (c =? 8239) || (c =? 8287)
   || (c =? 12288))%N.

Fixpoint lstrip (s : pystr) : pystr :=
  match s with
  | [] => []
  | c :: s' => if isspace c then lstrip s' else s
  end.

Definition rstrip (s : pystr) : pystr := rev (lstrip (rev s)).

(** [s.strip()]. *)
Definition strip (s : pystr) : pystr := rstrip (lstrip s).

(** [sep.join(l)]. *)
Fixpoint join (sep : pystr) (l : list pystr) : pystr :=
  match l with
  | [] => []
  | [x] => x
  | x :: l' => x ++ sep ++ join sep l'
  end.

(** [str(n)] for a natural number. *)
Definition str_of_nat (n : nat) : pystr :=
  py (NilEmpty.string_of_uint (Nat.to_uint n)).

(** ** Python values

    Action payloads, handler results and context items are schemaless: they
    are the values [json.loads] builds. A [dict] keeps its insertion order. *)

Inductive pyvalue : Type :=
| PNone
| PBool (b : bool)
| PInt (z : Z)
| PFloat (f : spec_float)
| PStr (s : pystr)
| PList (l : list pyvalue)
| PDict (d : list (pystr * pyvalue)).

Abbreviation pydict := (list (pystr * pyvalue)).

(** [d.get(k)]. *)
Fixpoint dict_get (d : pydict) (k : pystr) : option pyvalue :=
  match d with
  | [] => None
  | (k', v) :: d' => if decide (k' = k) then Some v else dict_get d' k
  end.

(** [d[k] = v]: an existing key keeps its place, a new one goes last. *)
Fixpoint dict_set (d : pydict) (k : pystr) (v : pyvalue) : pydict :=
  match d with
  | [] => [(k, v)]
  | (k', v') :: d' =>
      if decide (k' = k) then (k, v) :: d' else (k', v') :: dict_set d' k v
  end.

(** Truth value of an object in a condition. *)
Definition py_truthy (v : pyvalue) : bool :=
  match v with
  | PNone => false
  | PBool b => b
  | PInt z => negb (z =? 0)%Z
  | PFloat (S754_zero _) => false
  | PFloat _ => true
  | PStr s => negb (bool_decide (s = []))
  | PList l => match l with [] => false | _ => true end
  | PDict d => match d with [] => false | _ => true end
  end.

(** [len(v)]; [None] where Python raises [TypeError]. *)
Definition py_len (v : pyvalue) : option nat :=
  match v with
  | PStr s => Some (length s)
  | PList l => Some (length l)
  | PDict d => Some (length d)
  | _ => None
  end.

(** The items a [for] loop draws from [v]; [None] where [v] is not
    iterable. *)
Definition py_iter (v : pyvalue) : option (list pyvalue) :=
  match v with
  | PStr s => Some (map (fun c => PStr [c]) s)
  | PList l => Some l
  | PDict d => Some (map (fun kv => PStr kv.1) d)
  | _ => None
  end.

(** [type(v).__name__]. *)
Definition py_type_name (v : pyvalue) : pystr :=
  match v with
  | PNone => py "NoneType"
  | PBool _ => py "bool"
  | PInt _ => py "int"
  | PFloat _ => py "float"
  | PStr _ => py "str"
  | PList _ => py "list"
  | PDict _ => py "dict"
  end.

(** Exceptions, and results of calls that may raise. *)
Inductive pyexn : Type :=
| ValueError (msg : pystr)
| TypeError (msg : pystr)
| OtherError (msg : pystr).

Inductive res (A : Type) : Type :=
| Ok (a : A)
| Raise (e : pyexn).
Arguments Ok {A} a.
Arguments Raise {A} e.

(** ** Turns and conversations *)

Inductive ConversationState : Type :=
| INITIAL
| AWAITING_USER_INPUT
| ANALYZING
| AWAITING_CONFIRMATION
| EXECUTING
| ERROR.

(** [ConversationState.value]. *)
Definition ConversationState_value (s : ConversationState) : pystr :=
  match s with
  | INITIAL => py "initial"
  | AWAITING_USER_INPUT => py "awaiting_user_input"
  | ANALYZING => py "analyzing"
  | AWAITING_CONFIRMATION => py "awaiting_confirmation"
  | EXECUTING => py "executing"
  | ERROR => py "error"
  end.

Inductive ActionStatus : Type :=
| PROPOSED
| CONFIRMED
| REJECTED
| EXECUTED
| FAILED.

(** [ActionStatus.value]. *)
Definition ActionStatus_value (s : ActionStatus) : pystr :=
  match s with
  | PROPOSED => py "proposed"
  | CONFIRMED => py "confirmed"
  | REJECTED => py "rejected"
  | EXECUTED => py "executed"
  | FAILED => py "failed"
  end.

Record ConversationTurn : Type := mkTurn {
  user_input : option pystr;
  ai_response : option pystr;
  proposed_actions : pyvalue;
  confirmed : bool;
  executed_actions : pyvalue;
  timestamp : option pyvalue
}.

(** [x or []]. *)
Definition or_empty_list (x : option pyvalue) : pyvalue :=
  match x with
  | Some v => if py_truthy v then v else PList []
  | None => PList []
  end.

(** [ConversationTurn.__init__]. *)
Definition ConversationTurn_init (input response : option pystr)
    (proposed : option pyvalue) (conf : bool) (executed : option pyvalue)
  : ConversationTurn :=
  {| user_input := input;
     ai_response := response;
     proposed_actions := or_empty_list proposed;
     confirmed := conf;
     executed_actions := or_empty_list executed;
     timestamp := None |}.

Record Conversation : Type := mkConversation {
  conversation_id : option pystr;
  turns : list ConversationTurn;
  state : ConversationState;
  current_turn : option ConversationTurn;
  metadata : pydict
}.

(** [Conversation.__init__]. *)
Definition Conversation_init (id : option pystr) : Conversation :=
  {| conversation_id := id;
     turns := [];
     state := INITIAL;
     current_turn := None;
     metadata := [] |}.

(** Attribute assignments on a conversation and on a turn. *)
Definition with_turns (l : list ConversationTurn) (c : Conversation) :=
  mkConversation (conversation_id c) l (state c) (current_turn c) (metadata c).
Definition with_state (s : ConversationState) (c : Conversation) :=
  mkConversation (conversation_id c) (turns c) s (current_turn c) (metadata c).
Definition with_current (t : option ConversationTurn) (c : Conversation) :=
  mkConversation (conversation_id c) (turns c) (state c) t (metadata c).

Definition with_response (r : pystr) (t : ConversationTurn) :=
  mkTurn (user_input t) (Some r) (proposed_actions t) (confirmed t)
         (executed_actions t) (timestamp t).
Definition with_proposed (a : pyvalue) (t : ConversationTurn) :=
  mkTurn (user_input t) (ai_response t) a (confirmed t)
         (executed_actions t) (timestamp t).
Definition with_confirmed (b : bool) (t : ConversationTurn) :=
  mkTurn (user_input t) (ai_response t) (proposed_actions t) b
         (executed_actions t) (timestamp t).
Definition with_executed (e : pyvalue) (t : ConversationTurn) :=
  mkTurn (user_input t) (ai_response t) (proposed_actions t) (confirmed t)
         e (timestamp t).

Definition no_active_turn : pyexn := ValueError (py "No active conversation turn").

(** [Conversation.start_new_turn]: the conversation after the call; the
    turn it returns is the new [current_turn]. *)
Definition start_new_turn (input : pystr) (c : Conversation) : Conversation :=
  let c1 := match current_turn c with
            | Some t => with_turns (turns c ++ [t]) c
            | None => c
            end in
  let c2 := with_current
              (Some (ConversationTurn_init (Some input) None None false None)) c1 in
  with_state ANALYZING c2.

(** [Conversation.set_proposed_actions]. *)
Definition set_proposed_actions (response : pystr) (proposed : pyvalue)
    (c : Conversation) : res Conversation :=
  match current_turn c with
  | None => Raise no_active_turn
  | Some t =>
      let t1 := with_response response t in
      let t2 := with_proposed proposed t1 in
      Ok (with_state AWAITING_CONFIRMATION (with_current (Some t2) c))
  end.

(** [Conversation.set_confirmation]. *)
Definition set_confirmation (conf : bool) (c : Conversation) : res Conversation :=
  match current_turn c with
  | None => Raise no_active_turn
  | Some t =>
      let t1 := with_confirmed conf t in
      let c1 := with_current (Some t1) c in
      if conf then Ok (with_state EXECUTING c1)
      else
        let c2 := with_turns (turns c1 ++ [t1]) c1 in
        let c3 := with_current None c2 in
        Ok (with_state AWAITING_USER_INPUT c3)
  end.

(** [Conversation.set_executed_actions]. *)
Definition set_executed_actions (executed : pyvalue) (c : Conversation)
  : res Conversation :=
  match current_turn c with
  | None => Raise no_active_turn
  | Some t =>
      let t1 := with_executed executed t in
      let c1 := with_turns (turns c ++ [t1]) c in
      let c2 := with_current None c1 in
      Ok (with_state AWAITING_USER_INPUT c2)
  end.

(** [l[-k:]] for a list. *)
Definition last_items {A} (k : Z) (l : list A) : list A :=
  let len := Z.of_nat (length l) in
  let start := if (- k <? 0)%Z then Z.max (len - k) 0 else Z.min (- k) len in
  drop (Z.to_nat start) l.

(** [f"{x}"] for an optional string. *)
Definition fmt_opt (x : option pystr) : pystr :=
  match x with
  | Some s => s
  | None => py "None"
  end.

Definition nl : pystr := [10%N].

(** One round of the loop of [get_context_for_ai]: the text added for the
    turn at index [i]. *)
Definition render_turn (i : nat) (t : ConversationTurn) : pystr :=
  py "Turn " ++ str_of_nat (i + 1) ++ py ":" ++ nl
  ++ py "User: " ++ fmt_opt (user_input t) ++ nl
  ++ match ai_response t with
     | Some r => if bool_decide (r = []) then [] else py "AI: " ++ r ++ nl
     | None => []
     end
  ++ (if confirmed t then py "User confirmed actions." ++ nl
      else py "User rejected actions." ++ nl)
  ++ nl.

Fixpoint render_turns (i : nat) (l : list ConversationTurn) : pystr :=
  match l with
  | [] => []
  | t :: l' => render_turn i t ++ render_turns (S i) l'
  end.

(** [Conversation.get_context_for_ai]. *)
Definition get_context_for_ai (c : Conversation) (max_turns : Z) : pystr :=
  let recent_turns :=
    if (0 <? length (turns c))%nat then last_items max_turns (turns c) else [] in
  let history := render_turns 0 recent_turns in
  match current_turn c with
  | Some t =>
      match user_input t with
      | Some u =>
          if bool_decide (u = []) then history
          else history ++ py "Current Turn:" ++ nl ++ py "User: " ++ u ++ nl
      | None => history
      end
  | None => history
  end.

(** ** Calls that may raise *)

Definition res_bind {A B} (m : res A) (k : A -> res B) : res B :=
  match m with
  | Ok a => k a
  | Raise e => Raise e
  end.

Notation "'do' x <- m ; k" := (res_bind m (fun x => k))
  (at level 10, x name, m at level 100, k at level 200).

(** ** The replies of the reasoning-service client

    [AIManager.query] returns a dictionary with the model's text under
    ["response"], or, when the call to the service fails, the dictionary
    [{"error": str(e), "response": f"An error occurred: {str(e)}"}]. *)

Inductive query_result : Type :=
| Answer (text : pystr)
| Failure (error : pystr).

(** [result["response"]]. *)
Definition result_response (r : query_result) : pystr :=
  match r with
  | Answer text => text
  | Failure error => py "An error occurred: " ++ error
  end.

(** The client as the controller sees it: [query(prompt, context)]. *)
Abbreviation AIManager := (pystr -> list pyvalue -> res query_result).

(** What [process_user_input] and [process_confirmation] return. *)
Record input_reply : Type := mkInputReply {
  ir_response : pystr;
  ir_proposed_actions : pyvalue;
  ir_requires_confirmation : bool;
  ir_conversation_state : pystr
}.

Record confirmation_reply : Type := mkConfirmationReply {
  cr_confirmed : bool;
  cr_executed_actions : list pyvalue;
  cr_response : pystr;
  cr_conversation_state : pystr
}.

(** The caller's context lists live in a store: the controller receives a
    reference, and what it appends is seen by the caller. *)
Abbreviation loc := positive.
Abbreviation store := (gmap loc (list pyvalue)).

Definition deref (h : store) (l : loc) : list pyvalue := default [] (h !! l).

(** A new list object. *)
Definition alloc (h : store) (v : list pyvalue) : loc * store :=
  let l := fresh (dom h) in (l, <[l := v]> h).

(** A literal in which ['] stands for the double quote. *)
Definition pyq (s : string) : pystr :=
  map (fun c => if (c =? 39)%N then 34%N else c) (py s).

(** [nl.join(lines)] of literals. *)
Definition text (lines : list string) : pystr := join nl (map py lines).
Definition textq (lines : list string) : pystr := join nl (map pyq lines).

(** What a handler call does: it returns a result or raises. *)
Inductive outcome : Type :=
| Returned (result : pyvalue)
| Raised (msg : pystr).

Section Controller.

(** The standard library, as the controller uses it: [json.loads]
    ([None] where it raises), [str] on a value that is not a string, and
    [format(value, spec)], which renders a replacement field of an
    f-string that carries a format specification. *)
Variable json_loads : pystr -> option pyvalue.
Variable py_str : pyvalue -> pystr.
Variable py_format : pyvalue -> pystr -> res pystr.

(** [f"{v}"]. *)
Definition fmt_value (v : pyvalue) : pystr :=
  match v with
  | PStr s => s
  | _ => py_str v
  end.

(** *** The prompt

    The text of [_create_analysis_prompt] is an f-string, so each brace of
    its JSON sample opens a replacement field: the text before the colon is
    the expression, the text after it the format specification, and fields
    inside a specification are rendered first. *)

Definition prompt_head : pystr := text [
  "";
  "        You are an AI assistant that helps manage notes and related tasks in Noterer.";
  "";
  "        Task: Analyze the user's request, determine necessary actions, and present a summary for confirmation.";
  "";
  "        Conversation history:";
  "        " ].

Definition prompt_current : pystr := text [
  "";
  "";
  "        Current user input:";
  "        " ].

Definition prompt_steps : pystr := text [
  "";
  "";
  "        Please follow these steps:";
  "";
  "        1. Analyze the user's intent and determine required actions (note creation/modification, event scheduling, concept linking, etc.)";
  "";
  "        2. For each action, determine:";
  "           - Specific changes to be made";
  "           - Philosophical implications and categorizations";
  "           - Impact on the existing knowledge graph";
  "";
  "        3. Generate a clear summary of all proposed actions in user-friendly language";
  "";
  "        4. Ask for user confirmation before proceeding";
  "";
  "        Your response should include:";
  "        1. A brief analysis of the user's request";
  "        2. A clear summary of all proposed actions";
  "        3. A request for confirmation";
  "";
  "        For machine processing, include a JSON block with proposed actions in this format:";
  "        ```json";
  "        " ].

Definition prompt_tail : pystr := text [
  "";
  "        ```";
  "        " ].

(** The specifications of the two innermost fields, [{"name": ...}] and
    [{"weight": ...}]. The interpreter's [format] reads neither of them as
    a specification for a string and raises [ValueError]; what [format]
    does with them is left open here. *)
Definition spec_category : pystr := pyq " 'category', 'confidence': 0.9".
Definition spec_weight : pystr := pyq " 0.8".

(** The field of the first sample action, [{ "type": ... }]. *)
Definition field_create_note : res pystr :=
  do category <- py_format (PStr (py "name")) spec_category;
  py_format (PStr (py "type"))
    (textq [
       " 'create_note',";
       "              'content': 'note content',";
       "              'concepts': ['concept1', 'concept2'],";
       "              'categories': [" ]
     ++ category
     ++ textq [ "]"; "            " ]).

(** The field of the second sample action. *)
Definition field_create_relationship : res pystr :=
  do weight <- py_format (PStr (py "weight")) spec_weight;
  py_format (PStr (py "type"))
    (textq [
       " 'create_relationship',";
       "              'source': 'source_id',";
       "              'target': 'target_id',";
       "              'relationship_type': 'RELATES_TO',";
       "              'properties': " ]
     ++ weight
     ++ textq [ ""; "            " ]).

(** The outermost field, [{ "proposed_actions": ... }]. *)
Definition field_proposed_actions : res pystr :=
  do note <- field_create_note;
  do relationship <- field_create_relationship;
  py_format (PStr (py "proposed_actions"))
    (textq [ " ["; "            " ]
     ++ note
     ++ textq [ ","; "            " ]
     ++ relationship
     ++ textq [ ""; "          ]"; "        " ]).

(** [ConversationalFlowController._create_analysis_prompt]. *)
Definition _create_analysis_prompt (input conversation_history : pystr)
  : res pystr :=
  do sample <- field_proposed_actions;
  Ok (prompt_head ++ conversation_history ++ prompt_current ++ input
      ++ prompt_steps ++ sample ++ prompt_tail).

(** *** The extractor *)

(** [k in v] for a string [k]; [None] where Python raises [TypeError]. *)
Definition py_contains (v : pyvalue) (k : pystr) : option bool :=
  match v with
  | PDict d => Some (bool_decide (is_Some (dict_get d k)))
  | PList l =>
      Some (existsb (fun x => match x with
                              | PStr s => bool_decide (s = k)
                              | _ => false
                              end) l)
  | PStr s => Some (bool_decide (is_Some (find s k 0)))
  | _ => None
  end.

(** [v[k]] for a string [k]; [None] where Python raises. *)
Definition py_subscript (v : pyvalue) (k : pystr) : option pyvalue :=
  match v with
  | PDict d => dict_get d k
  | _ => None
  end.

(** [ConversationalFlowController._extract_actions_from_response]. Every
    exception raised inside the [try] block ends in the last line,
    [return response, proposed_actions], with the list still empty. *)
Definition _extract_actions_from_response (response : pystr)
  : pystr * pyvalue :=
  let proposed_actions := PList [] in
  let fallback := (response, proposed_actions) in
  match find response (py "```json") 0 with
  | None => fallback
  | Some json_start =>
      match find response (py "```") (json_start + 6) with
      | None => fallback
      | Some json_end =>
          let json_str := strip (slice response (json_start + 7) json_end) in
          match json_loads json_str with
          | None => fallback
          | Some action_data =>
              match py_contains action_data (py "proposed_actions") with
              | None => fallback
              | Some present =>
                  let assigned :=
                    if present
                    then py_subscript action_data (py "proposed_actions")
                    else Some proposed_actions in
                  match assigned with
                  | None => fallback
                  | Some proposed_actions =>
                      let user_response :=
                        take json_start response
                        ++ drop (json_end + 3) response in
                      (strip user_response, proposed_actions)
                  end
              end
          end
      end
  end.

(** *** Processing the user's input *)

(** [context or []]: the caller's list when it holds something, a new
    list otherwise. *)
Definition merged_context_of (context : option loc) (h : store)
  : loc * store :=
  match context with
  | Some l =>
      match deref h l with
      | [] => alloc h []
      | _ :: _ => (l, h)
      end
  | None => alloc h []
  end.

Definition history_item (conversation_history : pystr) : pyvalue :=
  PDict [ (py "type", PStr (py "conversation_history"));
          (py "content", PStr conversation_history) ].

(** [ConversationalFlowController.process_user_input]: the store and the
    conversation as the call leaves them, and what it returns or raises. *)
Definition process_user_input (ai_manager : AIManager)
    (conversation : Conversation) (input : pystr) (context : option loc)
    (h : store) : store * Conversation * res input_reply :=
  let conversation := start_new_turn input conversation in
  let conversation_history := get_context_for_ai conversation 5 in
  match _create_analysis_prompt input conversation_history with
  | Raise e => (h, conversation, Raise e)
  | Ok prompt =>
      let '(merged_context, h) := merged_context_of context h in
      let h :=
        match conversation_history with
        | [] => h
        | _ :: _ =>
            <[merged_context :=
                deref h merged_context ++ [history_item conversation_history]]> h
        end in
      match ai_manager prompt (deref h merged_context) with
      | Raise e => (h, conversation, Raise e)
      | Ok result =>
          let '(response_text, proposed) :=
            _extract_actions_from_response (result_response result) in
          match set_proposed_actions response_text proposed conversation with
          | Raise e => (h, conversation, Raise e)
          | Ok conversation =>
              match py_len proposed with
              | None =>
                  (h, conversation,
                   Raise (TypeError (py "object of type '" ++ py_type_name proposed
                                     ++ py "' has no len()")))
              | Some n =>
                  (h, conversation,
                   Ok {| ir_response := response_text;
                         ir_proposed_actions := proposed;
                         ir_requires_confirmation := (0 <? n)%nat;
                         ir_conversation_state :=
                           ConversationState_value (state conversation) |})
              end
          end
      end
  end.

(** *** Dispatching the confirmed actions

    A handler acts on the world outside the controller (the graph store)
    and returns a result or raises; it leaves its argument as it is. *)

Context {W : Type}.

Definition status_key : pystr := py "status".

(** [{**action, "status": "executed", "result": result}]. *)
Definition executed_record (action : pydict) (result : pyvalue) : pyvalue :=
  PDict (dict_set
           (dict_set action status_key (PStr (ActionStatus_value EXECUTED)))
           (py "result") result).

(** [{**action, "status": "failed", "error": error}]. *)
Definition failed_record (action : pydict) (error : pystr) : pyvalue :=
  PDict (dict_set
           (dict_set action status_key (PStr (ActionStatus_value FAILED)))
           (py "error") (PStr error)).

(** The [else] branch: no handler for the action. *)
Definition no_handler (action : pydict) (action_type : pyvalue)
  : pyvalue * option pystr :=
  (failed_record action (py "No handler available"),
   Some (py "No handler available for action type: " ++ fmt_value action_type)).

(** The [except] branch for an exception with text [msg]. *)
Definition execution_error (action : pydict) (action_type : pyvalue)
    (msg : pystr) : pyvalue * option pystr :=
  (failed_record action msg,
   Some (py "Error executing " ++ fmt_value action_type ++ py " action: " ++ msg)).

(** One round of the loop of [process_confirmation]: the world after it,
    and the record appended to [executed_actions] with the message
    appended to [errors], if any. An action that is not a dictionary has
    no [get]; the [except] branch then unpacks it with [**] and raises. *)
Definition dispatch
    (action_handlers : option (gmap pystr (pyvalue -> W -> W * outcome)))
    (action : pyvalue) (w : W) : W * res (pyvalue * option pystr) :=
  match action with
  | PDict d =>
      let action_type := default (PStr (py "unknown")) (dict_get d (py "type")) in
      match action_handlers with
      | None => (w, Ok (no_handler d action_type))
      | Some handlers =>
          if bool_decide (handlers = ∅) then (w, Ok (no_handler d action_type))
          else
            match action_type with
            | PStr t =>
                match handlers !! t with
                | Some handle =>
                    match handle action w with
                    | (w', Returned result) =>
                        (w', Ok (executed_record d result, None))
                    | (w', Raised msg) =>
                        (w', Ok (execution_error d action_type msg))
                    end
                | None => (w, Ok (no_handler d action_type))
                end
            | PList _ | PDict _ =>
                (w, Ok (execution_error d action_type
                          (py "unhashable type: '" ++ py_type_name action_type
                           ++ py "'")))
            | _ => (w, Ok (no_handler d action_type))
            end
      end
  | _ =>
      (w, Raise (TypeError (py "'" ++ py_type_name action
                            ++ py "' object is not a mapping")))
  end.

(** The loop over the proposed actions, with the lists it appends to. *)
Fixpoint run_actions
    (action_handlers : option (gmap pystr (pyvalue -> W -> W * outcome)))
    (actions : list pyvalue) (w : W)
    (executed : list pyvalue) (errors : list pystr)
  : W * res (list pyvalue * list pystr) :=
  match actions with
  | [] => (w, Ok (executed, errors))
  | action :: rest =>
      match dispatch action_handlers action w with
      | (w', Raise e) => (w', Raise e)
      | (w', Ok (executed_action, error)) =>
          run_actions action_handlers rest w'
            (executed ++ [executed_action])
            (errors ++ match error with Some m => [m] | None => [] end)
      end
  end.

(** [ConversationalFlowController.process_confirmation]: the world and the
    conversation as the call leaves them, and what it returns or raises. *)
Definition process_confirmation (conversation : Conversation) (conf : bool)
    (action_handlers : option (gmap pystr (pyvalue -> W -> W * outcome)))
    (w : W) : W * Conversation * res confirmation_reply :=
  match set_confirmation conf conversation with
  | Raise e => (w, conversation, Raise e)
  | Ok conversation =>
      if negb conf then
        (w, conversation,
         Ok {| cr_confirmed := false;
               cr_executed_actions := [];
               cr_response := py "Actions cancelled as requested.";
               cr_conversation_state :=
                 ConversationState_value (state conversation) |})
      else
        let loop :=
          match current_turn conversation with
          | Some turn =>
              if py_truthy (proposed_actions turn) then
                match py_iter (proposed_actions turn) with
                | Some actions => run_actions action_handlers actions w [] []
                | None =>
                    (w, Raise (TypeError
                                 (py "'" ++ py_type_name (proposed_actions turn)
                                  ++ py "' object is not iterable")))
                end
              else (w, Ok ([], []))
          | None => (w, Ok ([], []))
          end in
        match loop with
        | (w, Raise e) => (w, conversation, Raise e)
        | (w, Ok (executed, errors)) =>
            match set_executed_actions (PList executed) conversation with
            | Raise e => (w, conversation, Raise e)
            | Ok conversation =>
                let response :=
                  match errors with
                  | [] => py "All actions were completed successfully."
                  | _ :: _ =>
                      py "Some actions could not be completed: "
                      ++ join (py "; ") errors
                  end in
                (w, conversation,
                 Ok {| cr_confirmed := true;
                       cr_executed_actions := executed;
                       cr_response := response;
                       cr_conversation_state :=
                         ConversationState_value (state conversation) |})
            end
        end
  end.

End Controller.

(** ** Instances of the standard library, for running the controller

    The properties below hold for every [json.loads], [str] and [format].
    To run the controller on concrete texts, this section gives a decoder
    for the core of JSON — objects, arrays, strings with the one-letter
    escapes, integers, [true], [false] and [null] — which is where it agrees
    with [json.loads]; the texts of the examples stay inside that core. *)

Definition json_ws (c : N) : bool :=
  ((c =? 32) || (c =? 9) || (c =? 10) || (c =? 13))%N.

Fixpoint skip_ws (s : pystr) : pystr :=
  match s with
  | [] => []
  | c :: s' => if json_ws c then skip_ws s' else s
  end.

(** The character an escape letter stands for. *)
Definition unescape (c : N) : option N :=
  (if c =? 34 then Some 34 else if c =? 92 then Some 92
   else if c =? 47 then Some 47 else if c =? 98 then Some 8
   else if c =? 102 then Some 12 else if c =? 110 then Some 10
   else if c =? 114 then Some 13 else if c =? 116 then Some 9
   else None)%N.

(** The body of a string, after its opening quote. *)
Fixpoint scan_string (s acc : pystr) : option (pystr * pystr) :=
  match s with
  | [] => None
  | c :: r =>
      if (c =? 34)%N then Some (acc, r)
      else if (c =? 92)%N then
        match r with
        | e :: r' =>
            match unescape e with
            | Some x => scan_string r' (acc ++ [x])
            | None => None
            end
        | [] => None
        end
      else if (c <? 32)%N then None
      else scan_string r (acc ++ [c])
  end.

Definition is_digit (c : N) : bool := ((48 <=? c) && (c <=? 57))%N.

Fixpoint scan_digits (s : pystr) (acc : Z) : Z * pystr :=
  match s with
  | [] => (acc, [])
  | c :: r =>
      if is_digit c then scan_digits r (10 * acc + (Z.of_N c - 48))%Z
      else (acc, s)
  end.

(** An integer without sign: [0], or digits that start with a non-zero one.
    A fraction or an exponent after it makes the number a float, outside the
    core. *)
Definition scan_nat (s : pystr) : option (Z * pystr) :=
  match s with
  | [] => None
  | c :: r =>
      let '(z, rest) :=
        if (c =? 48)%N then (0%Z, r) else scan_digits s 0 in
      if negb (is_digit c) then None
      else match rest with
           | d :: _ =>
               if ((d =? 46) || (d =? 101) || (d =? 69))%N then None
               else Some (z, rest)
           | [] => Some (z, rest)
           end
  end.

(** The elements of an array, after the first one's leading whitespace. *)
Fixpoint parse_elements (parse : pystr -> option (pyvalue * pystr))
    (fuel : nat) (s : pystr) (acc : list pyvalue)
  : option (list pyvalue * pystr) :=
  match fuel with
  | O => None
  | S n =>
      match parse s with
      | None => None
      | Some (v, r) =>
          match skip_ws r with
          | c :: r' =>
              if (c =? 44)%N then parse_elements parse n (skip_ws r') (acc ++ [v])
              else if (c =? 93)%N then Some (acc ++ [v], r')
              else None
          | [] => None
          end
      end
  end.

(** The members of an object, at the quote of the first key. A key given
    twice keeps its place and takes the later value. *)
Fixpoint parse_members (parse : pystr -> option (pyvalue * pystr))
    (fuel : nat) (s : pystr) (acc : pydict) : option (pydict * pystr) :=
  match fuel with
  | O => None
  | S n =>
      match s with
      | c :: r =>
          if negb (c =? 34)%N then None
          else
            match scan_string r [] with
            | None => None
            | Some (k, r1) =>
                match skip_ws r1 with
                | c1 :: r2 =>
                    if negb (c1 =? 58)%N then None
                    else
                      match parse (skip_ws r2) with
                      | None => None
                      | Some (v, r3) =>
                          match skip_ws r3 with
                          | c2 :: r4 =>
                              if (c2 =? 44)%N then
                                parse_members parse n (skip_ws r4) (dict_set acc k v)
                              else if (c2 =? 125)%N then Some (dict_set acc k v, r4)
                              else None
                          | [] => None
                          end
                      end
                | [] => None
                end
            end
      | [] => None
      end
  end.

(** A value that starts at the head of [s]. *)
Fixpoint parse_value (fuel : nat) (s : pystr) : option (pyvalue * pystr) :=
  match fuel with
  | O => None
  | S n =>
      match s with
      | [] => None
      | c :: r =>
          if (c =? 34)%N then
            match scan_string r [] with
            | Some (x, r') => Some (PStr x, r')
            | None => None
            end
          else if (c =? 123)%N then
            match skip_ws r with
            | d :: r' =>
                if (d =? 125)%N then Some (PDict [], r')
                else match parse_members (parse_value n) (length r) (d :: r') [] with
                     | Some (m, r'') => Some (PDict m, r'')
                     | None => None
                     end
            | [] => None
            end
          else if (c =? 91)%N then
            match skip_ws r with
            | d :: r' =>
                if (d =? 93)%N then Some (PList [], r')
                else match parse_elements (parse_value n) (length r) (d :: r') [] with
                     | Some (l, r'') => Some (PList l, r'')
                     | None => None
                     end
            | [] => None
            end
          else if starts_with (py "null") s then Some (PNone, drop 4 s)
          else if starts_with (py "true") s then Some (PBool true, drop 4 s)
          else if starts_with (py "false") s then Some (PBool false, drop 5 s)
          else if (c =? 45)%N then
            match scan_nat r with
            | Some (z, r') => Some (PInt (- z), r')
            | None => None
            end
          else
            match scan_nat s with
            | Some (z, r') => Some (PInt z, r')
            | None => None
            end
      end
  end.

(** [json.loads] on the core of JSON. *)
Definition json_loads_core (s : pystr) : option pyvalue :=
  let s := skip_ws s in
  match parse_value (S (length s)) s with
  | Some (v, r) =>
      match skip_ws r with
      | [] => Some v
      | _ :: _ => None
      end
  | None => None
  end.

(** [str] on [None], the booleans and the integers. *)
Definition str_scalar (v : pyvalue) : pystr :=
  match v with
  | PNone => py "None"
  | PBool true => py "True"
  | PBool false => py "False"
  | PInt z => py (NilEmpty.string_of_int (Z.to_int z))
  | PStr s => s
  | _ => []
  end.

(** The interpreter's [format] on the specifications this program gives
    it: with the empty one it returns the text of the value; the
    specifications of the template (see [spec_category], [spec_weight]) it
    refuses with [ValueError]. Every other specification, none of which
    the program passes, is refused here as well, and the message is cut
    after its first words. *)
Definition format_strict (v : pyvalue) (spec : pystr) : res pystr :=
  match spec with
  | [] => Ok (str_scalar v)
  | _ :: _ => Raise (ValueError (py "Invalid format specifier"))
  end.

(** ** Notions the properties are stated with *)

(** The text [sub] occurs in [s] at index [i]. *)
Definition occurs_at (sub s : pystr) (i : nat) : Prop :=
  i <= length s /\ sub `prefix_of` drop i s.

(** The first occurrence of [sub] in [s] at or after [start] is at [j]. *)
Definition first_at (sub s : pystr) (start j : nat) : Prop :=
  start <= j /\ occurs_at sub s j
  /\ forall k, start <= k -> k < j -> ~ occurs_at sub s k.

(** The two fences the extractor looks for. *)
Definition fence_json : pystr := py "```json".
Definition fence : pystr := py "```".
Definition actions_key : pystr := py "proposed_actions".

(** The conversations a caller can build: a new one, changed by the four
    methods of [Conversation]. *)
Inductive reachable : Conversation -> Prop :=
| reach_init id : reachable (Conversation_init id)
| reach_start input c :
    reachable c -> reachable (start_new_turn input c)
| reach_proposed response proposed c c' :
    reachable c -> set_proposed_actions response proposed c = Ok c' ->
    reachable c'
| reach_confirmation conf c c' :
    reachable c -> set_confirmation conf c = Ok c' -> reachable c'
| reach_executed executed c c' :
    reachable c -> set_executed_actions executed c = Ok c' -> reachable c'.

(** What holds of every turn of a reachable conversation. *)
Definition turn_unstamped (t : ConversationTurn) : Prop := timestamp t = None.
Definition turn_unexecuted (t : ConversationTurn) : Prop :=
  executed_actions t = PList [].

Definition is_dict (v : pyvalue) : Prop :=
  match v with
  | PDict _ => True
  | _ => False
  end.

(** [e] is the record of [a]: the fields of [a], with the status and the
    result or the error written over them. *)
Definition record_of (a e : pyvalue) : Prop :=
  exists d d', a = PDict d /\ e = PDict d'
    /\ (dict_get d' status_key = Some (PStr (ActionStatus_value EXECUTED))
        \/ dict_get d' status_key = Some (PStr (ActionStatus_value FAILED)))
    /\ forall k, k <> status_key -> k <> py "result" -> k <> py "error" ->
                 dict_get d' k = dict_get d k.

(** [action_handlers.get(t)] for an optional registry. *)
Definition handler_for {W} (action_handlers : option (gmap pystr (pyvalue -> W -> W * outcome)))
    (t : pystr) : option (pyvalue -> W -> W * outcome) :=
  match action_handlers with
  | Some handlers => handlers !! t
  | None => None
  end.

(** [action.get("type", "unknown")]. *)
Definition action_type_of (d : pydict) : pyvalue :=
  default (PStr (py "unknown")) (dict_get d (py "type")).

(** ** Sample conversations, actions and handlers *)

Definition conv_fresh : Conversation := Conversation_init None.

(** After [start_new_turn("Add a note about stoicism")]. *)
Definition conv_open : Conversation :=
  start_new_turn (py "Add a note about stoicism") conv_fresh.

Definition stoicism_action : pyvalue :=
  PDict [ (py "type", PStr (py "create_note"));
          (py "content", PStr (py "stoicism")) ].

Definition concept_action : pyvalue :=
  PDict [ (py "type", PStr (py "create_concept"));
          (py "name", PStr (py "virtue")) ].

Definition link_action : pyvalue :=
  PDict [ (py "type", PStr (py "create_relationship")) ].

(** The conversation when the call is a method's normal return. *)
Definition returned (r : res Conversation) (otherwise : Conversation)
  : Conversation :=
  match r with
  | Ok c => c
  | Raise _ => otherwise
  end.

(** After the service proposed three actions for the open turn. *)
Definition conv_proposed : Conversation :=
  returned
    (set_proposed_actions (py "I will create a note.")
       (PList [stoicism_action; concept_action; link_action]) conv_open)
    conv_open.

(** The world of the sample handlers: the actions the graph store was asked
    to carry out, oldest first. *)
Definition note_handler (action : pyvalue) (w : list pyvalue)
  : list pyvalue * outcome :=
  (w ++ [action], Returned (PDict [ (py "note_id", PStr (py "n1")) ])).

Definition failing_handler (action : pyvalue) (w : list pyvalue)
  : list pyvalue * outcome :=
  (w ++ [action], Raised (py "graph store unavailable")).

(** A registry with a handler that succeeds, one that raises, and none for
    [create_concept]. *)
Definition sample_handlers
  : gmap pystr (pyvalue -> list pyvalue -> list pyvalue * outcome) :=
  {[ py "create_note" := note_handler;
     py "create_relationship" := failing_handler ]}.

(** The actions of a batch are dispatched one after the other, each in the
    world the one before it left, whatever the one before it came to:
    [dispatched] relates the world before and the actions to the world
    after, the records and the error messages. *)
Inductive dispatched {W} (py_str : pyvalue -> pystr)
    (action_handlers : option (gmap pystr (pyvalue -> W -> W * outcome)))
  : W -> list pyvalue -> W -> list pyvalue -> list pystr -> Prop :=
| dispatched_nil w : dispatched py_str action_handlers w [] w [] []
| dispatched_cons w action w1 record error rest w2 records errors :
    dispatch py_str action_handlers action w = (w1, Ok (record, error)) ->
    dispatched py_str action_handlers w1 rest w2 records errors ->
    dispatched py_str action_handlers w (action :: rest) w2
      (record :: records) (option_list error ++ errors).

(** The response text of a confirmed batch. *)
Definition batch_response (errors : list pystr) : pystr :=
  match errors with
  | [] => py "All actions were completed successfully."
  | _ :: _ => py "Some actions could not be completed: " ++ join (py "; ") errors
  end.

Definition sample_actions : list pyvalue :=
  [stoicism_action; concept_action; link_action].

(** The open turn of [conv_proposed]. *)
Definition proposed_turn : ConversationTurn :=
  {| user_input := Some (py "Add a note about stoicism");
     ai_response := Some (py "I will create a note.");
     proposed_actions := PList sample_actions;
     confirmed := false;
     executed_actions := PList [];
     timestamp := None |}.

Definition concept_fields : pydict :=
  [ (py "type", PStr (py "create_concept")); (py "name", PStr (py "virtue")) ].

(** The statuses of a list of records. *)
Definition statuses (records : list pyvalue) : list (option pyvalue) :=
  map (fun r => py_subscript r status_key) records.

(** A response made of the text [pre], a json-tagged opening fence, the text
    [content], a closing fence and the text [post]. *)
Definition fenced (pre content post : pystr) : pystr :=
  pre ++ fence_json ++ content ++ fence ++ post.

(** The block of [fenced pre content post] is the one the extractor reads:
    the json-tagged fence after [pre] is the first in the response, and the
    fence after [content] is the first one after the tag. *)
Definition block_is_first (pre content post : pystr) : Prop :=
  first_at fence_json (fenced pre content post) 0 (length pre)
  /\ first_at fence (fenced pre content post) (length pre + 6)
       (length pre + 7 + length content).

(** What [json.loads] did with a text that gives no dictionary, list or
    string: it raised, or it returned [None], a boolean or a number. *)
Definition no_container (r : option pyvalue) : Prop :=
  match r with
  | None => True
  | Some (PNone | PBool _ | PInt _ | PFloat _) => True
  | Some (PStr _ | PList _ | PDict _) => False
  end.

(** The response of the round-trip sample, and its parts. *)
Definition sample_pre : pystr := text [ "I will add a note."; "" ].
Definition sample_content : pystr :=
  textq [ ""; "{'proposed_actions': [{'type': 'create_note', 'content': 'x'}]}"; "" ].
Definition sample_post : pystr := text [ ""; "Shall I proceed?  " ].

(** A fenced block with a JSON object that has no [proposed_actions]. *)
Definition keyless_response : pystr := py "```json{}```".

Definition sample_action_list : pyvalue :=
  PList [ PDict [ (py "type", PStr (py "create_note"));
                  (py "content", PStr (py "x")) ] ].

(** Responses that give no actions: no fence, no closing fence, a content
    that is not JSON. *)
Definition plain_response : pystr := py "No actions are needed.".
Definition unclosed_response : pystr := py "Here: ```json {".
Definition malformed_content : pystr := py " {not json ".


Definition sample_client : AIManager :=
  fun _ _ => Ok (Answer (fenced sample_pre sample_content sample_post)).

(** A caller's context: one note, in a list held at location [1]. *)
Definition note_item : pyvalue :=
  PDict [ (py "type", PStr (py "note")); (py "content", PStr (py "On virtue")) ].

Definition caller_store : store := {[ 1%positive := [note_item] ]}.

(** The turn [start_new_turn] opens. *)
Definition fresh_turn (input : pystr) : ConversationTurn :=
  {| user_input := Some input; ai_response := None;
     proposed_actions := PList []; confirmed := false;
     executed_actions := PList []; timestamp := None |}.

Definition connection_error : pystr := py "Connection error.".

(** ** Notions for the further properties *)

(** A conversation with three closed turns and an open one. *)
Definition conv_busy : Conversation :=
  foldl (fun c input => start_new_turn input c) conv_fresh
    [py "one"; py "two"; py "three"; py "four"].

(** The record says the action was executed. *)
Definition executed_status (record : pyvalue) : Prop :=
  py_subscript record status_key = Some (PStr (ActionStatus_value EXECUTED)).

(** The exception of [{**action, ...}] for an action that is no mapping. *)
Definition not_a_mapping (action : pyvalue) : pyexn :=
  TypeError (py "'" ++ py_type_name action ++ py "' object is not a mapping").

(** A batch whose second action is a string, not a dictionary. *)
Definition conv_bad_batch : Conversation :=
  returned
    (set_proposed_actions (py "I will create a note.")
       (PList [stoicism_action; PStr (py "create_concept"); link_action])
       conv_open)
    conv_open.

(** The loop of [process_confirmation] over the proposed actions of the
    open turn, with its guard. *)
Definition confirmed_loop {W} (py_str : pyvalue -> pystr)
    (action_handlers : option (gmap pystr (pyvalue -> W -> W * outcome)))
    (proposed : pyvalue) (w : W) : W * res (list pyvalue * list pystr) :=
  if py_truthy proposed then
    match py_iter proposed with
    | Some actions => run_actions py_str action_handlers actions w [] []
    | None =>
        (w, Raise (TypeError (py "'" ++ py_type_name proposed
                              ++ py "' object is not iterable")))
    end
  else (w, Ok ([], [])).

(** The reply of a call that returned. *)
Definition reply_of (r : res confirmation_reply) : confirmation_reply :=
  match r with
  | Ok reply => reply
  | Raise _ => mkConfirmationReply false [] [] []
  end.

(** The sample batch, confirmed. *)
Definition confirmed_run
  : list pyvalue * Conversation * res confirmation_reply :=
  process_confirmation str_scalar conv_proposed true (Some sample_handlers) [].

(** ** Dictionaries of turns and conversations

    [to_dict] and [from_dict]. The fields of a turn and of a conversation
    are typed as the source annotates them; [from_dict] is defined on the
    data these types admit, and [None] stands for data outside them (a
    [user_input] that is a number, say). *)

Definition with_timestamp (ts : option pyvalue) (t : ConversationTurn) :=
  mkTurn (user_input t) (ai_response t) (proposed_actions t) (confirmed t)
         (executed_actions t) ts.

(** An optional string, and an optional value, as values. *)
Definition opt_str_value (x : option pystr) : pyvalue :=
  match x with
  | Some s => PStr s
  | None => PNone
  end.

Definition opt_value (x : option pyvalue) : pyvalue := default PNone x.

(** [ConversationTurn.to_dict]. *)
Definition ConversationTurn_to_dict (t : ConversationTurn) : pydict :=
  [ (py "user_input", opt_str_value (user_input t));
    (py "ai_response", opt_str_value (ai_response t));
    (py "proposed_actions", proposed_actions t);
    (py "confirmed", PBool (confirmed t));
    (py "executed_actions", executed_actions t);
    (py "timestamp", opt_value (timestamp t)) ].

(** [data.get(k)] for a field that holds a string or [None]. *)
Definition get_opt_str (data : pydict) (k : pystr) : option (option pystr) :=
  match dict_get data k with
  | None | Some PNone => Some None
  | Some (PStr s) => Some (Some s)
  | Some _ => None
  end.

(** [data.get(k, default)] for a field that holds a boolean. *)
Definition get_bool (data : pydict) (k : pystr) (otherwise : bool) : option bool :=
  match dict_get data k with
  | None => Some otherwise
  | Some (PBool b) => Some b
  | Some _ => None
  end.

(** [data.get(k)] for a field that holds any value or [None]. *)
Definition get_opt_value (data : pydict) (k : pystr) : option pyvalue :=
  match dict_get data k with
  | None | Some PNone => None
  | Some v => Some v
  end.

(** [ConversationTurn.from_dict]. *)
Definition ConversationTurn_from_dict (data : pydict) : option ConversationTurn :=
  match get_opt_str data (py "user_input"),
        get_opt_str data (py "ai_response"),
        get_bool data (py "confirmed") false with
  | Some input, Some response, Some conf =>
      let turn :=
        ConversationTurn_init input response
          (Some (default (PList []) (dict_get data (py "proposed_actions"))))
          conf
          (Some (default (PList []) (dict_get data (py "executed_actions")))) in
      Some (with_timestamp (get_opt_value data (py "timestamp")) turn)
  | _, _, _ => None
  end.

(** [Conversation.to_dict]. *)
Definition Conversation_to_dict (c : Conversation) : pydict :=
  [ (py "conversation_id", opt_str_value (conversation_id c));
    (py "state", PStr (ConversationState_value (state c)));
    (py "turns", PList (map (fun t => PDict (ConversationTurn_to_dict t)) (turns c)));
    (py "current_turn",
     match current_turn c with
     | Some t => PDict (ConversationTurn_to_dict t)
     | None => PNone
     end);
    (py "metadata", PDict (metadata c)) ].

Definition all_states : list ConversationState :=
  [INITIAL; AWAITING_USER_INPUT; ANALYZING; AWAITING_CONFIRMATION; EXECUTING; ERROR].

(** [ConversationState(value)]: the member with that value; [None] where
    the call raises [ValueError]. *)
Definition ConversationState_of_value (v : pyvalue) : option ConversationState :=
  match v with
  | PStr s =>
      List.find (fun st => bool_decide (ConversationState_value st = s)) all_states
  | _ => None
  end.

(** The exception of [x.get] for an [x] that is no dictionary, and of a
    loop over a value that is not iterable. *)
Definition no_get (v : pyvalue) : pyexn :=
  OtherError (py "'" ++ py_type_name v ++ py "' object has no attribute 'get'").

Definition not_iterable (v : pyvalue) : pyexn :=
  TypeError (py "'" ++ py_type_name v ++ py "' object is not iterable").

(** [ConversationTurn.from_dict(turn)] for an item of any kind. *)
Definition turn_from_value (v : pyvalue) : option (res ConversationTurn) :=
  match v with
  | PDict data =>
      match ConversationTurn_from_dict data with
      | Some t => Some (Ok t)
      | None => None
      end
  | _ => Some (Raise (no_get v))
  end.

(** [[ConversationTurn.from_dict(turn) for turn in items]]. *)
Fixpoint turns_from_values (items : list pyvalue)
  : option (res (list ConversationTurn)) :=
  match items with
  | [] => Some (Ok [])
  | v :: rest =>
      match turn_from_value v with
      | None => None
      | Some (Raise e) => Some (Raise e)
      | Some (Ok t) =>
          match turns_from_values rest with
          | None => None
          | Some (Raise e) => Some (Raise e)
          | Some (Ok ts) => Some (Ok (t :: ts))
          end
      end
  end.

Section Serialisation.

(** [repr], for the text of the exception of an unknown state. *)
Variable py_repr : pyvalue -> pystr.

Definition invalid_state (v : pyvalue) : pyexn :=
  ValueError (py_repr v ++ py " is not a valid ConversationState").

(** [Conversation.from_dict]. *)
Definition Conversation_from_dict (data : pydict) : option (res Conversation) :=
  match get_opt_str data (py "conversation_id") with
  | None => None
  | Some id =>
      let conversation := Conversation_init id in
      let state_value := default (PStr (py "initial")) (dict_get data (py "state")) in
      match ConversationState_of_value state_value with
      | None => Some (Raise (invalid_state state_value))
      | Some st =>
          let conversation := with_state st conversation in
          let turn_items := default (PList []) (dict_get data (py "turns")) in
          match py_iter turn_items with
          | None => Some (Raise (not_iterable turn_items))
          | Some items =>
              match turns_from_values items with
              | None => None
              | Some (Raise e) => Some (Raise e)
              | Some (Ok ts) =>
                  let conversation := with_turns ts conversation in
                  let current :=
                    match dict_get data (py "current_turn") with
                    | Some v =>
                        if py_truthy v then
                          match turn_from_value v with
                          | None => None
                          | Some (Raise e) => Some (Raise e)
                          | Some (Ok t) => Some (Ok (Some t))
                          end
                        else Some (Ok None)
                    | None => Some (Ok None)
                    end in
                  match current with
                  | None => None
                  | Some (Raise e) => Some (Raise e)
                  | Some (Ok cur) =>
                      let conversation := with_current cur conversation in
                      match default (PDict []) (dict_get data (py "metadata")) with
                      | PDict m =>
                          Some (Ok (mkConversation
                                      (conversation_id conversation)
                                      (turns conversation) (state conversation)
                                      (current_turn conversation) m))
                      | _ => None
                      end
                  end
              end
          end
      end
  end.

End Serialisation.

(** A turn that [to_dict] and [from_dict] bring back as it is: its two
    lists of actions are lists, and its timestamp, if there is one, is not
    [None]. *)
Definition list_valued (v : pyvalue) : Prop :=
  match v with
  | PList _ => True
  | _ => False
  end.

Definition turn_restorable (t : ConversationTurn) : Prop :=
  list_valued (proposed_actions t) /\ list_valued (executed_actions t)
  /\ timestamp t <> Some PNone.

(** [repr] on [None], booleans, integers, and strings that need no
    escape. *)
Definition repr_plain (v : pyvalue) : pystr :=
  match v with
  | PStr s => py "'" ++ s ++ py "'"
  | _ => str_scalar v
  end.

(** The conversation of the sample batch, with a further turn opened. *)
Definition conv_resumed : Conversation :=
  start_new_turn (py "And another") confirmed_run.1.2.

(** A turn whose proposed actions are the number [0]. *)
Definition zero_turn : ConversationTurn := with_proposed (PInt 0) proposed_turn.

(** A stored conversation with a state the code does not know. *)
Definition paused_data : pydict := [ (py "state", PStr (py "paused")) ].

(** ** The registry of the controller

    [ConversationalFlowController.get_or_create_conversation], on the
    registry [active_conversations]: the conversation returned and the
    registry after the call. *)
Definition get_or_create_conversation (active : gmap pystr Conversation)
    (id : option pystr) : Conversation * gmap pystr Conversation :=
  match id with
  | Some (ch :: rest) =>
      match active !! (ch :: rest) with
      | Some conversation => (conversation, active)
      | None =>
          let conversation := Conversation_init id in
          (conversation, <[ch :: rest := conversation]> active)
      end
  | _ => (Conversation_init id, active)
  end.

(** A registry that holds the conversation of the sample batch. *)
Definition sample_registry : gmap pystr Conversation :=
  {[ py "c-1" := conv_proposed ]}.

(** ** The reasoning-service client: [backend/ai/manager.py] *)

(** [str(e)]. *)
Definition exn_message (e : pyexn) : pystr :=
  match e with
  | ValueError msg | TypeError msg | OtherError msg => msg
  end.

(** The exception of [v.name] for a [v] without that attribute. *)
Definition no_attribute (v : pyvalue) (name : pystr) : pyexn :=
  OtherError (py "'" ++ py_type_name v ++ py "' object has no attribute '"
              ++ name ++ py "'").

(** [v == s] for a value that may be missing and a string. *)
Definition is_str (v : option pyvalue) (s : pystr) : bool :=
  match v with
  | Some (PStr x) => bool_decide (x = s)
  | _ => false
  end.

(** [AIManager.system_prompts]. *)
Definition general_prompt : pystr :=
  py "You are an intelligent assistant for the Noterer application. You help with note-taking, concept extraction, and philosophical organization.".

Definition system_prompts : list (pystr * pystr) :=
  [ (py "general", general_prompt);
    (py "analysis",
     py "You are an analytical assistant for the Noterer application. Extract concepts, categorize content philosophically, and identify relationships between ideas.");
    (py "confirmation",
     py "You are a helpful assistant for the Noterer application. Your task is to clearly explain proposed changes and ask for user confirmation before proceeding.") ].

Fixpoint table_get (table : list (pystr * pystr)) (k : pystr) : option pystr :=
  match table with
  | [] => None
  | (k', v) :: rest => if decide (k' = k) then Some v else table_get rest k
  end.

(** [s.split(sep)] for a separator of one character. *)
Fixpoint split_on (sep : N) (s : pystr) : list pystr :=
  match s with
  | [] => [[]]
  | c :: s' =>
      if (c =? sep)%N then [] :: split_on sep s'
      else match split_on sep s' with
           | line :: lines => (c :: line) :: lines
           | [] => [[c]]
           end
  end.

(** A message for the service: its role and its content. *)
Abbreviation message := (pystr * pystr)%type.

(** [if current_role and current_content: messages.append(...)]. *)
Definition flush (messages : list message) (current_role : option pystr)
    (current_content : list pystr) : list message :=
  match current_role, current_content with
  | Some role, _ :: _ => messages ++ [(role, join nl current_content)]
  | _, _ => messages
  end.

(** One round of the loop over the lines of a history: the messages, the
    current role and the current content after the line. *)
Definition history_step
    (st : list message * option pystr * list pystr) (line : pystr)
  : list message * option pystr * list pystr :=
  let '(messages, current_role, current_content) := st in
  if starts_with (py "User: ") line then
    (flush messages current_role current_content, Some (py "user"), [drop 6 line])
  else if starts_with (py "AI: ") line then
    (flush messages current_role current_content, Some (py "assistant"),
     [drop 4 line])
  else
    match current_content with
    | _ :: _ => (messages, current_role, current_content ++ [line])
    | [] => st
    end.

(** The messages appended for the lines of one history. *)
Definition history_messages (messages : list message) (lines : list pystr)
  : list message :=
  let '(messages, current_role, current_content) :=
    foldl history_step (messages, None, []) lines in
  flush messages current_role current_content.

(** [item["content"].strip().split('\n')]. *)
Definition history_lines (item : pydict) : res (list pystr) :=
  match dict_get item (py "content") with
  | None => Raise (OtherError (py "'content'"))
  | Some (PStr s) => Ok (split_on 10 (strip s))
  | Some v => Raise (no_attribute v (py "strip"))
  end.

(** The loop of [query] over the context: the messages after it. *)
Fixpoint context_messages (messages : list message) (context : list pyvalue)
  : res (list message) :=
  match context with
  | [] => Ok messages
  | PDict item :: rest =>
      if is_str (dict_get item (py "type")) (py "conversation_history") then
        do lines <- history_lines item;
        context_messages (history_messages messages lines) rest
      else context_messages messages rest
  | item :: _ => Raise (no_get item)
  end.

(** [[item for item in context if item.get("type") != "conversation_history"]]. *)
Fixpoint without_history (context : list pyvalue) : res (list pydict) :=
  match context with
  | [] => Ok []
  | PDict item :: rest =>
      do kept <- without_history rest;
      Ok (if is_str (dict_get item (py "type")) (py "conversation_history")
          then kept else item :: kept)
  | item :: _ => Raise (no_get item)
  end.

(** [AIManager._extract_sources]. *)
Fixpoint note_ids (context : list pyvalue) : res (list pyvalue) :=
  match context with
  | [] => Ok []
  | PDict item :: rest =>
      do ids <- note_ids rest;
      Ok (if is_str (dict_get item (py "type")) (py "note")
          then default PNone (dict_get item (py "id")) :: ids else ids)
  | item :: _ => Raise (no_get item)
  end.

Definition _extract_sources (response : pystr) (context : option (list pyvalue))
  : res (list pyvalue) :=
  match context with
  | Some (item :: rest) => note_ids (item :: rest)
  | _ => Ok []
  end.

(** [AIManager._extract_concepts]. *)
Definition _extract_concepts (response : pystr) : list pyvalue := [].

(** The dictionary [query] returns when an exception was caught. *)
Definition error_dict (msg : pystr) : pydict :=
  [ (py "error", PStr msg);
    (py "response", PStr (py "An error occurred: " ++ msg)) ].

Section Manager.

Variable json_loads : pystr -> option pyvalue.
Variable py_str : pyvalue -> pystr.

(** [str.upper]. *)
Variable py_upper : pystr -> pystr.

(** The service: [client.chat.completions.create] with the messages and
    the request for a JSON object, giving the content of the first choice
    or raising. *)
Variable create : list message -> bool -> res pystr.

(** The text added to the context section for one item. *)
Definition context_entry (item : pydict) : res pystr :=
  match dict_get item (py "type"), dict_get item (py "content") with
  | Some type_, Some content =>
      match type_ with
      | PStr t =>
          Ok (nl ++ py_upper t ++ py ":" ++ nl ++ fmt_value py_str content ++ nl)
      | _ => Raise (no_attribute type_ (py "upper"))
      end
  | _, _ => Ok []
  end.

Fixpoint context_entries (items : list pydict) : res pystr :=
  match items with
  | [] => Ok []
  | item :: rest =>
      do entry <- context_entry item;
      do entries <- context_entries rest;
      Ok (entry ++ entries)
  end.

(** [AIManager._build_prompt]. *)
Definition _build_prompt (prompt : pystr) (context : option (list pyvalue))
    (structured_output : bool) : res pystr :=
  do filtered_context <-
    match context with
    | Some (item :: rest) => without_history (item :: rest)
    | _ => Ok []
    end;
  match filtered_context with
  | [] => Ok prompt
  | _ :: _ =>
      do entries <- context_entries filtered_context;
      let context_text := nl ++ nl ++ py "### CONTEXT:" ++ nl ++ entries in
      let output_instructions :=
        if structured_output then
          nl ++ nl ++ py "### OUTPUT FORMAT:" ++ nl
          ++ py "Provide your response in valid JSON format." ++ nl
        else [] in
      Ok (context_text ++ nl ++ nl ++ py "### QUERY:" ++ nl ++ prompt
          ++ output_instructions)
  end.

(** The body of the [try] block of [query]. *)
Definition query_attempt (full_prompt : pystr) (context : option (list pyvalue))
    (prompt_type : pystr) (structured_output : bool) : res pydict :=
  let system_prompt :=
    default general_prompt (table_get system_prompts prompt_type) in
  do messages <-
    match context with
    | Some (item :: rest) =>
        context_messages [(py "system", system_prompt)] (item :: rest)
    | _ => Ok [(py "system", system_prompt)]
    end;
  let messages := messages ++ [(py "user", full_prompt)] in
  do content <- create messages structured_output;
  do sources <- _extract_sources content context;
  let result :=
    [ (py "response", PStr content);
      (py "source_notes", PList sources);
      (py "concepts_referenced", PList (_extract_concepts content)) ] in
  if structured_output then
    match json_loads content with
    | Some data => Ok (dict_set result (py "structured_data") data)
    | None =>
        Ok (dict_set (dict_set result (py "structured_data") PNone)
              (py "parse_error") (PStr (py "Failed to parse JSON response")))
    end
  else Ok result.

(** [AIManager.query]. *)
Definition query (prompt : pystr) (context : option (list pyvalue))
    (prompt_type : pystr) (structured_output : bool) : res pydict :=
  do full_prompt <- _build_prompt prompt context structured_output;
  match query_attempt full_prompt context prompt_type structured_output with
  | Ok result => Ok result
  | Raise e => Ok (error_dict (exn_message e))
  end.

End Manager.

(** A context item that carries the conversation history. *)
Definition is_history_item (item : pyvalue) : bool :=
  match item with
  | PDict d => is_str (dict_get d (py "type")) (py "conversation_history")
  | _ => false
  end.

(** The role a line of a history opens a message for, if any. *)
Definition marker_role (line : pystr) : option pystr :=
  if starts_with (py "User: ") line then Some (py "user")
  else if starts_with (py "AI: ") line then Some (py "assistant")
  else None.

(** [str.upper] on letters of the Latin alphabet without accents. *)
Definition upper_ascii (s : pystr) : pystr :=
  map (fun c => if ((97 <=? c) && (c <=? 122))%N then (c - 32)%N else c) s.

(** A service that answers every request with the same text, and one that
    is out of reach. *)
Definition echo_service (answer : pystr) : list message -> bool -> res pystr :=
  fun _ _ => Ok answer.

Definition unreachable_service : list message -> bool -> res pystr :=
  fun _ _ => Raise (OtherError connection_error).

(** A context of one note and the history of a conversation. *)
Definition sample_context : list pyvalue :=
  [ note_item;
    PDict [ (py "type", PStr (py "conversation_history"));
            (py "content", PStr (get_context_for_ai conv_busy 5)) ] ].

(** ** The conversation routes: [backend/api/routes/conversation.py] *)

(** What a route comes to: a reply, an [HTTPException], or an exception
    that leaves the route. *)
Inductive http (A : Type) : Type :=
| Replied (a : A)
| HttpError (status : nat) (detail : pystr)
| Failed (e : pyexn).
Arguments Replied {A} a.
Arguments HttpError {A} status detail.
Arguments Failed {A} e.

(** The 404 of a conversation that is not registered. *)
Definition not_found {A} (conversation_id : pystr) : http A :=
  HttpError 404 (py "Conversation with ID " ++ conversation_id ++ py " not found").

(** [KeyError(k)]. *)
Definition key_error (k : pystr) : pyexn := OtherError (py "'" ++ k ++ py "'").

(** The graph store, as the action handlers use it: each method acts on
    the store and returns a dictionary or raises. *)
Record GraphManager (W : Type) : Type := mkGraphManager {
  gm_create_note : pyvalue -> W -> W * res pydict;
  gm_create_concept :
    pyvalue -> option pyvalue -> option pyvalue -> W -> W * res pydict;
  gm_create_relationship :
    pyvalue -> pyvalue -> pyvalue -> option pyvalue -> W -> W * res pydict
}.
Arguments gm_create_note {W} _ _ _.
Arguments gm_create_concept {W} _ _ _ _ _.
Arguments gm_create_relationship {W} _ _ _ _ _ _.

Section Routes.

Variable json_loads : pystr -> option pyvalue.
Variable py_str : pyvalue -> pystr.
Variable py_format : pyvalue -> pystr -> res pystr.
Context {W : Type}.
Variable graph_manager : GraphManager W.

(** The loop of [handle_create_note] over the concepts. *)
Fixpoint link_concepts (note : pydict) (concepts : list pyvalue) (w : W)
  : W * res unit :=
  match concepts with
  | [] => (w, Ok tt)
  | concept_name :: rest =>
      match gm_create_concept graph_manager concept_name None None w with
      | (w, Raise e) => (w, Raise e)
      | (w, Ok concept) =>
          match dict_get note (py "id") with
          | None => (w, Raise (key_error (py "id")))
          | Some note_id =>
              match dict_get concept (py "id") with
              | None => (w, Raise (key_error (py "id")))
              | Some concept_id =>
                  match gm_create_relationship graph_manager note_id concept_id
                          (PStr (py "ABOUT")) None w with
                  | (w, Raise e) => (w, Raise e)
                  | (w, Ok _) => link_concepts note rest w
                  end
              end
          end
      end
  end.

(** [handle_create_note]: the store after the call, and the dictionary
    returned or the exception raised. *)
Definition handle_create_note (action : pyvalue) (w : W) : W * res pydict :=
  match action with
  | PDict d =>
      let content := default (PStr []) (dict_get d (py "content")) in
      let concepts := default (PList []) (dict_get d (py "concepts")) in
      match gm_create_note graph_manager content w with
      | (w, Raise e) => (w, Raise e)
      | (w, Ok note) =>
          match py_iter concepts with
          | None => (w, Raise (not_iterable concepts))
          | Some names =>
              match link_concepts note names w with
              | (w, Raise e) => (w, Raise e)
              | (w, Ok _) =>
                  match dict_get note (py "id") with
                  | None => (w, Raise (key_error (py "id")))
                  | Some note_id =>
                      (w, Ok [ (py "note_id", note_id);
                               (py "created", PBool true) ])
                  end
              end
          end
      end
  | _ => (w, Raise (no_get action))
  end.

(** [handle_create_concept]. *)
Definition handle_create_concept (action : pyvalue) (w : W) : W * res pydict :=
  match action with
  | PDict d =>
      let name := default (PStr []) (dict_get d (py "name")) in
      let description := default (PStr []) (dict_get d (py "description")) in
      let categories := default (PList []) (dict_get d (py "categories")) in
      match gm_create_concept graph_manager name (Some description)
              (Some categories) w with
      | (w, Raise e) => (w, Raise e)
      | (w, Ok concept) =>
          match dict_get concept (py "id") with
          | None => (w, Raise (key_error (py "id")))
          | Some concept_id =>
              (w, Ok [ (py "concept_id", concept_id);
                       (py "created", PBool true) ])
          end
      end
  | _ => (w, Raise (no_get action))
  end.

(** [handle_create_relationship]. *)
Definition handle_create_relationship (action : pyvalue) (w : W)
  : W * res pydict :=
  match action with
  | PDict d =>
      let source_id := default (PStr []) (dict_get d (py "source")) in
      let target_id := default (PStr []) (dict_get d (py "target")) in
      let relationship_type :=
        default (PStr (py "RELATES_TO")) (dict_get d (py "relationship_type")) in
      let properties := default (PDict []) (dict_get d (py "properties")) in
      match gm_create_relationship graph_manager source_id target_id
              relationship_type (Some properties) w with
      | (w, Raise e) => (w, Raise e)
      | (w, Ok _) =>
          (w, Ok [ (py "source_id", source_id);
                   (py "target_id", target_id);
                   (py "created", PBool true) ])
      end
  | _ => (w, Raise (no_get action))
  end.

(** A handler as the controller awaits it. *)
Definition awaited (handle : pyvalue -> W -> W * res pydict)
  : pyvalue -> W -> W * outcome :=
  fun action w =>
    match handle action w with
    | (w, Ok result) => (w, Returned (PDict result))
    | (w, Raise e) => (w, Raised (exn_message e))
    end.

(** The [action_handlers] of the confirmation route. *)
Definition route_handlers : gmap pystr (pyvalue -> W -> W * outcome) :=
  {[ py "create_note" := awaited handle_create_note;
     py "create_concept" := awaited handle_create_concept;
     py "create_relationship" := awaited handle_create_relationship ]}.

(** The route [POST /start], for the identity [uuid4] gave. *)
Definition route_start_conversation (active : gmap pystr Conversation)
    (conversation_id : pystr) : gmap pystr Conversation * http pydict :=
  (<[conversation_id := Conversation_init (Some conversation_id)]> active,
   Replied [ (py "conversation_id", PStr conversation_id);
             (py "status", PStr (py "started")) ]).

(** The route [POST /input/{conversation_id}]; [None] for a body whose
    ["text"] is not a string. *)
Definition route_process_user_input (ai_manager : AIManager)
    (active : gmap pystr Conversation) (conversation_id : pystr)
    (user_input : pydict)
  : option (gmap pystr Conversation * http pydict) :=
  match active !! conversation_id with
  | None => Some (active, not_found conversation_id)
  | Some conversation =>
      match dict_get user_input (py "text") with
      | None => Some (active, Failed (key_error (py "text")))
      | Some (PStr input) =>
          let '(context, h) := alloc ∅ [] in
          let '(_, conversation, result) :=
            process_user_input json_loads py_format ai_manager conversation
              input (Some context) h in
          let active := <[conversation_id := conversation]> active in
          match result with
          | Raise e => Some (active, Failed e)
          | Ok result =>
              Some (active,
                    Replied
                      [ (py "conversation_id", PStr conversation_id);
                        (py "response", PStr (ir_response result));
                        (py "requires_confirmation",
                         PBool (ir_requires_confirmation result));
                        (py "proposed_actions", ir_proposed_actions result);
                        (py "conversation_state",
                         PStr (ir_conversation_state result)) ])
          end
      | Some _ => None
      end
  end.

(** The route [POST /confirm/{conversation_id}]. *)
Definition route_process_confirmation (active : gmap pystr Conversation)
    (conversation_id : pystr) (confirmation : gmap pystr bool) (w : W)
  : gmap pystr Conversation * W * http pydict :=
  match active !! conversation_id with
  | None => (active, w, not_found conversation_id)
  | Some conversation =>
      let '(w, conversation, result) :=
        process_confirmation py_str conversation
          (default false (confirmation !! py "confirmed"))
          (Some route_handlers) w in
      let active := <[conversation_id := conversation]> active in
      match result with
      | Raise e => (active, w, Failed e)
      | Ok result =>
          (active, w,
           Replied
             [ (py "conversation_id", PStr conversation_id);
               (py "confirmed", PBool (cr_confirmed result));
               (py "response", PStr (cr_response result));
               (py "executed_actions", PList (cr_executed_actions result));
               (py "conversation_state", PStr (cr_conversation_state result)) ])
      end
  end.

(** The route [GET /{conversation_id}]. *)
Definition route_get_conversation (active : gmap pystr Conversation)
    (conversation_id : pystr) : http pydict :=
  match active !! conversation_id with
  | None => not_found conversation_id
  | Some conversation =>
      Replied
        [ (py "conversation_id", PStr conversation_id);
          (py "state", PStr (ConversationState_value (state conversation)));
          (py "turns", PInt (Z.of_nat (length (turns conversation))));
          (py "has_current_turn",
           PBool (bool_decide (is_Some (current_turn conversation)))) ]
  end.

(** The route [DELETE /{conversation_id}]. *)
Definition route_end_conversation (active : gmap pystr Conversation)
    (conversation_id : pystr) : gmap pystr Conversation * http pydict :=
  match active !! conversation_id with
  | None => (active, not_found conversation_id)
  | Some _ =>
      (delete conversation_id active,
       Replied [ (py "conversation_id", PStr conversation_id);
                 (py "status", PStr (py "ended")) ])
  end.

End Routes.

(** A graph store that logs what it was asked and returns a note without
    an ["id"], a concept with one and no relationship. *)
Definition sample_graph : GraphManager (list pyvalue) :=
  {| gm_create_note := fun content w => (w ++ [content], Ok []);
     gm_create_concept :=
       fun name _ _ w => (w ++ [name], Ok [ (py "id", PStr (py "k1")) ]);
     gm_create_relationship :=
       fun source target kind _ w => (w ++ [PList [source; target; kind]], Ok []) |}.

Definition stoicism_fields : pydict :=
  [ (py "type", PStr (py "create_note")); (py "content", PStr (py "stoicism")) ].

Definition relationship_fields : pydict :=
  [ (py "type", PStr (py "create_relationship")); (py "source", PStr (py "n1")) ].

(** * Properties *)

(** ** Strings *)

Lemma starts_with_prefix sub s : starts_with sub s = true <-> sub `prefix_of` s.
Proof.
  revert s. induction sub as [|c sub IH]; intros s; simpl.
  - split; [intros _; apply prefix_nil | done].
  - destruct s as [|d s].
    + split; [done | intros H; by apply prefix_nil_not in H].
    + rewrite andb_true_iff, N.eqb_eq, IH. split.
      * intros [-> H]. by apply prefix_cons.
      * intros H. split; [by apply prefix_cons_inv_1 in H | by apply prefix_cons_inv_2 in H].
Qed.

Lemma starts_with_false sub s : starts_with sub s = false <-> ~ sub `prefix_of` s.
Proof.
  rewrite <- starts_with_prefix. destruct (starts_with sub s); split; done.
Qed.

Lemma find_from_Some sub s i j :
  find_from sub s i = Some j ->
  exists k, j = i + k /\ k <= length s /\ sub `prefix_of` drop k s
            /\ forall k', k' < k -> ~ sub `prefix_of` drop k' s.
Proof.
  revert i. induction s as [|c s IH]; intros i; simpl.
  - destruct (starts_with sub []) eqn:E; [|done]. intros [= <-].
    exists 0. rewrite Nat.add_0_r. repeat split; [done | by apply starts_with_prefix | lia].
  - destruct (starts_with sub (c :: s)) eqn:E.
    + intros [= <-]. exists 0. rewrite Nat.add_0_r.
      repeat split; [lia | by apply starts_with_prefix | lia].
    + intros H. apply IH in H as (k & -> & Hk & Hp & Hmin).
      exists (S k). repeat split; [lia | simpl; lia | done |].
      intros [|k'] Hlt; simpl.
      * by apply starts_with_false.
      * apply Hmin. lia.
Qed.

Lemma find_from_first sub s i k :
  k <= length s -> sub `prefix_of` drop k s ->
  (forall k', k' < k -> ~ sub `prefix_of` drop k' s) ->
  find_from sub s i = Some (i + k).
Proof.
  revert i k. induction s as [|c s IH]; intros i k Hk Hp Hmin; simpl.
  - simpl in Hk. assert (k = 0) as -> by lia. simpl in Hp.
    apply starts_with_prefix in Hp. rewrite Hp. f_equal. lia.
  - destruct k as [|k].
    + simpl in Hp. apply starts_with_prefix in Hp. simpl in Hp. rewrite Hp.
      f_equal. lia.
    + assert (starts_with sub (c :: s) = false) as ->.
      { apply starts_with_false. apply (Hmin 0). lia. }
      rewrite (IH (S i) k); [f_equal; lia | simpl in Hk; lia | done |].
      intros k' Hlt. apply (Hmin (S k')). lia.
Qed.

Lemma find_from_None sub s i :
  find_from sub s i = None ->
  forall k, k <= length s -> ~ sub `prefix_of` drop k s.
Proof.
  revert i. induction s as [|c s IH]; intros i; simpl.
  - destruct (starts_with sub []) eqn:E; [done|]. intros _ k Hk.
    assert (k = 0) as -> by lia. by apply starts_with_false.
  - destruct (starts_with sub (c :: s)) eqn:E; [done|]. intros H [|k] Hk; simpl.
    + by apply starts_with_false.
    + apply (IH _ H). lia.
Qed.

(** [find] returns the first occurrence at or after its start. *)
Lemma find_Some_first_at s sub start j :
  find s sub start = Some j <-> first_at sub s start j.
Proof.
  unfold find, first_at, occurs_at. split.
  - destruct (length s <? start) eqn:E; [done|]. apply Nat.ltb_ge in E.
    intros H. apply find_from_Some in H as (k & -> & Hk & Hp & Hmin).
    rewrite length_drop in Hk. rewrite drop_drop in Hp.
    repeat split; [lia | lia | done |].
    intros k' Hge Hlt [_ Hocc]. apply (Hmin (k' - start)); [lia|].
    rewrite drop_drop. by replace (start + (k' - start)) with k' by lia.
  - intros (Hge & [Hlen Hp] & Hmin).
    assert ((length s <? start) = false) as -> by (apply Nat.ltb_ge; lia).
    replace j with (start + (j - start)) by lia.
    apply find_from_first.
    + rewrite length_drop. lia.
    + rewrite drop_drop. by replace (start + (j - start)) with j by lia.
    + intros k' Hlt. rewrite drop_drop. intros Hocc.
      apply (Hmin (start + k')); [lia | lia |]. split; [lia | done].
Qed.

(** [find] returns [-1] exactly when there is no occurrence at or after its
    start. *)
Lemma find_None_no_occurrence s sub start :
  find s sub start = None <-> forall j, start <= j -> ~ occurs_at sub s j.
Proof.
  split.
  - unfold find, occurs_at.
    destruct (length s <? start) eqn:E.
    + apply Nat.ltb_lt in E. intros _ j Hj [Hlen _]. lia.
    + apply Nat.ltb_ge in E. intros H j Hj [Hlen Hp].
      apply (find_from_None _ _ _ H (j - start)).
      * rewrite length_drop. lia.
      * rewrite drop_drop. by replace (start + (j - start)) with j by lia.
  - intros Hno. destruct (find s sub start) as [j|] eqn:E; [|done].
    apply find_Some_first_at in E as (Hge & Hocc & _). by destruct (Hno j Hge).
Qed.

(** ** The conversation state machine *)

Lemma start_new_turn_turns input c :
  turns (start_new_turn input c)
  = turns c ++ match current_turn c with Some t => [t] | None => [] end.
Proof. unfold start_new_turn. destruct (current_turn c); simpl; by rewrite ?app_nil_r. Qed.

Lemma start_new_turn_current input c :
  current_turn (start_new_turn input c)
  = Some (ConversationTurn_init (Some input) None None false None).
Proof. unfold start_new_turn. by destruct (current_turn c). Qed.

Lemma start_new_turn_state input c : state (start_new_turn input c) = ANALYZING.
Proof. unfold start_new_turn. by destruct (current_turn c). Qed.

(** Every turn of a reachable conversation, closed or open, has no
    timestamp, and the open one has no executed actions. *)
Lemma reachable_invariant c :
  reachable c ->
  Forall turn_unstamped (turns c)
  /\ forall t, current_turn c = Some t -> turn_unstamped t /\ turn_unexecuted t.
Proof.
  induction 1 as [id | input c _ [IHt IHc] | r a c c' _ [IHt IHc] Hstep
                 | b c c' _ [IHt IHc] Hstep | e c c' _ [IHt IHc] Hstep].
  - split; [constructor | intros t [=]].
  - split.
    + rewrite start_new_turn_turns. apply Forall_app. split; [done|].
      destruct (current_turn c) as [t|] eqn:E; [|constructor].
      constructor; [|constructor]. by apply IHc.
    + rewrite start_new_turn_current. by intros t [= <-].
  - unfold set_proposed_actions in Hstep.
    destruct (current_turn c) as [t|] eqn:E; [|done].
    injection Hstep as <-. simpl. split; [done|].
    intros t' [= <-]. by destruct (IHc t eq_refl).
  - unfold set_confirmation in Hstep.
    destruct (current_turn c) as [t|] eqn:E; [|done].
    destruct (IHc t eq_refl) as [Hs He].
    destruct b; injection Hstep as <-; simpl.
    + split; [done|]. by intros t' [= <-].
    + split; [|done]. apply Forall_app. split; [done|]. by repeat constructor.
  - unfold set_executed_actions in Hstep.
    destruct (current_turn c) as [t|] eqn:E; [|done].
    destruct (IHc t eq_refl) as [Hs He].
    injection Hstep as <-. simpl. split; [|done].
    apply Forall_app. split; [done|]. by repeat constructor.
Qed.

(** The history after a run of [start_new_turn] calls. *)
Lemma start_new_turn_run_length inputs c :
  length (turns (foldl (fun c input => start_new_turn input c) c inputs))
  = length (turns c)
    + match current_turn c with
      | Some _ => length inputs
      | None => length inputs - 1
      end.
Proof.
  revert c. induction inputs as [|input inputs IH]; intros c; simpl.
  - destruct (current_turn c); lia.
  - rewrite IH, start_new_turn_turns, start_new_turn_current, length_app.
    destruct (current_turn c); simpl; lia.
Qed.

(** C6: [start_new_turn] always succeeds. Whatever the conversation, it
    appends the current turn, if there is one and even if it is incomplete,
    to the history, makes a fresh turn with the user's input the current
    one and sets the state to [ANALYZING]; so after [N] calls in a row on a
    new conversation, [N] being at least one, the history holds [N - 1]
    turns. *)
Theorem start_new_turn_always_opens :
  forall input c,
    turns (start_new_turn input c)
    = turns c ++ match current_turn c with Some t => [t] | None => [] end
    /\ current_turn (start_new_turn input c)
       = Some {| user_input := Some input; ai_response := None;
                 proposed_actions := PList []; confirmed := false;
                 executed_actions := PList []; timestamp := None |}
    /\ state (start_new_turn input c) = ANALYZING
    /\ forall id first inputs,
         length (turns (foldl (fun c i => start_new_turn i c)
                              (Conversation_init id) (first :: inputs)))
         = length (first :: inputs) - 1.
Proof.
  intros input c. split; [apply start_new_turn_turns|].
  split; [apply start_new_turn_current|].
  split; [apply start_new_turn_state|].
  intros id first inputs. rewrite start_new_turn_run_length. simpl. lia.
Qed.

(** C5: on a conversation with an open turn, [set_confirmation(True)]
    changes the turn's [confirmed] flag and the state tag and nothing else:
    the history is the same and the turn stays current. The turn is closed
    by [set_executed_actions], which, whatever the executed list holds,
    appends the turn to the history, clears the current turn and sets the
    state to [AWAITING_USER_INPUT]. *)
Theorem confirmation_leaves_turn_open :
  forall c t,
    current_turn c = Some t ->
    exists c1,
      set_confirmation true c = Ok c1
      /\ turns c1 = turns c
      /\ current_turn c1 = Some (with_confirmed true t)
      /\ state c1 = EXECUTING
      /\ conversation_id c1 = conversation_id c
      /\ metadata c1 = metadata c
      /\ forall executed,
           exists c2,
             set_executed_actions executed c1 = Ok c2
             /\ turns c2
                = turns c ++ [with_executed executed (with_confirmed true t)]
             /\ current_turn c2 = None
             /\ state c2 = AWAITING_USER_INPUT.
Proof.
  intros c t Hc. unfold set_confirmation. rewrite Hc.
  eexists. split; [reflexivity|]. simpl. repeat (split; [reflexivity|]).
  intros executed. unfold set_executed_actions. simpl.
  eexists. split; [reflexivity|]. by simpl.
Qed.

Lemma confirmation_leaves_turn_open_witness :
  current_turn conv_proposed = Some proposed_turn
  /\ exists c1,
       set_confirmation true conv_proposed = Ok c1
       /\ turns c1 = turns conv_proposed
       /\ current_turn c1 = Some (with_confirmed true proposed_turn)
       /\ state c1 = EXECUTING
       /\ conversation_id c1 = conversation_id conv_proposed
       /\ metadata c1 = metadata conv_proposed
       /\ forall executed,
            exists c2,
              set_executed_actions executed c1 = Ok c2
              /\ turns c2
                 = turns conv_proposed
                   ++ [with_executed executed (with_confirmed true proposed_turn)]
              /\ current_turn c2 = None
              /\ state c2 = AWAITING_USER_INPUT.
Proof.
  split; [reflexivity|].
  exact (confirmation_leaves_turn_open conv_proposed proposed_turn eq_refl).
Defined.

(** The closed turn is the open one with its [executed_actions] replaced. *)
Lemma set_executed_actions_closes executed c t :
  current_turn c = Some t ->
  set_executed_actions executed c
  = Ok (with_state AWAITING_USER_INPUT
          (with_current None (with_turns (turns c ++ [with_executed executed t]) c))).
Proof. intros Hc. unfold set_executed_actions. by rewrite Hc. Qed.

(** C9, on the code: a turn has no timestamp when it is made, and none
    after it went into the history, whichever way it went: replaced by
    [start_new_turn], rejected, or executed. No method assigns the field. *)
Theorem timestamp_absent_after_closing :
  timestamp (ConversationTurn_init (Some (py "hello")) None None false None) = None
  /\ map timestamp (turns (start_new_turn (py "again") conv_open)) = [None]
  /\ map timestamp (turns (returned (set_confirmation false conv_proposed) conv_fresh))
     = [None]
  /\ map timestamp
       (turns (returned
                 (set_executed_actions (PList [])
                    (returned (set_confirmation true conv_proposed) conv_fresh))
                 conv_fresh))
     = [None].
Proof. by repeat split. Qed.

(** ** Dictionaries *)

Lemma dict_get_set_eq d k v : dict_get (dict_set d k v) k = Some v.
Proof.
  induction d as [|[k' v'] d IH]; simpl.
  - by rewrite decide_True.
  - destruct (decide (k' = k)) as [->|Hne]; simpl.
    + by rewrite decide_True.
    + by rewrite decide_False.
Qed.

Lemma dict_get_set_ne d k k' v :
  k <> k' -> dict_get (dict_set d k v) k' = dict_get d k'.
Proof.
  intros Hne. induction d as [|[k0 v0] d IH]; simpl.
  - by rewrite decide_False.
  - destruct (decide (k0 = k)) as [->|Hne0]; simpl.
    + by rewrite !decide_False.
    + destruct (decide (k0 = k')); [done | apply IH].
Qed.

Lemma keys_distinct :
  status_key <> py "result" /\ status_key <> py "error"
  /\ py "result" <> py "error".
Proof. by repeat split. Qed.

(** ** The dispatcher *)

Section DispatcherProperties.

Variable py_str : pyvalue -> pystr.
Context {W : Type}.
Implicit Types (action_handlers : option (gmap pystr (pyvalue -> W -> W * outcome))).
Implicit Types (w : W) (d : pydict).

Lemma executed_record_of d result :
  record_of (PDict d) (executed_record d result).
Proof.
  destruct keys_distinct as (H1 & H2 & H3).
  exists d, (dict_set (dict_set d status_key (PStr (ActionStatus_value EXECUTED)))
               (py "result") result).
  repeat split; try done.
  - left. rewrite dict_get_set_ne by done. apply dict_get_set_eq.
  - intros k Hs Hr He. rewrite !dict_get_set_ne by done. done.
Qed.

Lemma failed_record_of d error :
  record_of (PDict d) (failed_record d error).
Proof.
  destruct keys_distinct as (H1 & H2 & H3).
  exists d, (dict_set (dict_set d status_key (PStr (ActionStatus_value FAILED)))
               (py "error") (PStr error)).
  repeat split; try done.
  - right. rewrite dict_get_set_ne by done. apply dict_get_set_eq.
  - intros k Hs Hr He. rewrite !dict_get_set_ne by done. done.
Qed.

(** Dispatching a dictionary never raises: it gives one record of the
    action, whatever the registry holds and the handler does. *)
Lemma dispatch_dict action_handlers d w :
  exists w1 record error,
    dispatch py_str action_handlers (PDict d) w = (w1, Ok (record, error))
    /\ record_of (PDict d) record.
Proof.
  unfold dispatch, no_handler, execution_error.
  destruct action_handlers as [handlers|];
    [|eauto using failed_record_of].
  case_bool_decide; [eauto using failed_record_of|].
  destruct (default _ _) as [| | | |t| |]; eauto using failed_record_of.
  destruct (handlers !! t) as [handle|]; [|eauto using failed_record_of].
  destruct (handle (PDict d) w) as [w1 [result|msg]];
    eauto using failed_record_of, executed_record_of.
Qed.

(** Where the registry has a handler for the type of the action, dispatch
    calls it, once, on the action, and records what it did. *)
Lemma dispatch_calls_handler action_handlers d t handle w :
  action_type_of d = PStr t ->
  handler_for action_handlers t = Some handle ->
  dispatch py_str action_handlers (PDict d) w
  = match handle (PDict d) w with
    | (w', Returned result) => (w', Ok (executed_record d result, None))
    | (w', Raised msg) => (w', Ok (execution_error py_str d (PStr t) msg))
    end.
Proof.
  intros Ht Hh. unfold dispatch. fold (action_type_of d). rewrite Ht.
  destruct action_handlers as [handlers|]; [|done]. simpl in Hh.
  rewrite bool_decide_eq_false_2, Hh; [done|].
  intros ->. by rewrite lookup_empty in Hh.
Qed.

Lemma run_actions_dispatched action_handlers actions :
  Forall is_dict actions ->
  forall w executed errors,
  exists w' records messages,
    dispatched py_str action_handlers w actions w' records messages
    /\ run_actions py_str action_handlers actions w executed errors
       = (w', Ok (executed ++ records, errors ++ messages)).
Proof.
  induction 1 as [|action rest Hd _ IH]; intros w executed errors; simpl.
  - exists w, [], []. split; [constructor|]. by rewrite !app_nil_r.
  - destruct action as [| | | | | |d]; try done.
    destruct (dispatch_dict action_handlers d w) as (w1 & record & error & Hdis & _).
    rewrite Hdis.
    destruct (IH w1 (executed ++ [record])
                (errors ++ match error with Some m => [m] | None => [] end))
      as (w' & records & messages & Hrest & ->).
    exists w', (record :: records), (option_list error ++ messages).
    split; [by econstructor|].
    rewrite <- !app_assoc. by destruct error.
Qed.

Lemma dispatched_records action_handlers w actions w' records messages :
  Forall is_dict actions ->
  dispatched py_str action_handlers w actions w' records messages ->
  Forall2 record_of actions records.
Proof.
  intros Hd Hrun. induction Hrun as [|w action w1 record error rest w2 records errors Hdis _ IH].
  - constructor.
  - apply Forall_cons in Hd as [Ha Hrest]. constructor; [|by apply IH].
    destruct action as [| | | | | |d]; try done.
    destruct (dispatch_dict action_handlers d w) as (? & ? & ? & Hdis' & Hrec).
    rewrite Hdis in Hdis'. by injection Hdis' as <- <- <-.
Qed.

(** C1: when the user confirms a turn whose proposed actions are
    dictionaries, [process_confirmation] returns: it dispatches the
    actions one after the other, each in the world the one before it left
    and whatever the one before it came to (no handler, a handler that
    raised, or a result), and the executed list holds one record per
    proposed action, in the order of the proposals; that list is what the
    closed turn keeps. *)
Theorem process_confirmation_dispatches_each_action :
  forall c t actions action_handlers w,
    current_turn c = Some t ->
    proposed_actions t = PList actions ->
    Forall is_dict actions ->
    exists w' executed errors c',
      process_confirmation py_str c true action_handlers w
      = (w', c',
         Ok {| cr_confirmed := true;
               cr_executed_actions := executed;
               cr_response := batch_response errors;
               cr_conversation_state :=
                 ConversationState_value AWAITING_USER_INPUT |})
      /\ dispatched py_str action_handlers w actions w' executed errors
      /\ length executed = length actions
      /\ Forall2 record_of actions executed
      /\ turns c'
         = turns c ++ [with_executed (PList executed) (with_confirmed true t)]
      /\ current_turn c' = None
      /\ state c' = AWAITING_USER_INPUT.
Proof.
  intros c t actions action_handlers w Hc Hp Hd.
  destruct (run_actions_dispatched action_handlers actions Hd w [] [])
    as (w' & executed & errors & Hrun & Heq).
  simpl in Heq.
  assert (Forall2 record_of actions executed) as Hrec
    by eauto using dispatched_records.
  assert (length executed = length actions) as Hlen
    by (symmetry; by eapply Forall2_length).
  exists w', executed, errors.
  unfold process_confirmation, set_confirmation. rewrite Hc. simpl. rewrite Hp.
  destruct actions as [|action rest].
  - inversion Hrun; subst. simpl.
    eexists. split; [reflexivity|]. simpl. repeat split; done.
  - change (py_truthy (PList (action :: rest))) with true. cbv iota.
    change (py_iter (PList (action :: rest))) with (Some (action :: rest)).
    cbv iota. rewrite Heq. unfold set_executed_actions. simpl.
    eexists. split; [reflexivity|]. simpl.
    repeat split; try done; exact Hlen.
Qed.

(** C4: on a reachable conversation with an open turn,
    [set_confirmation(False)] appends the turn to the history, clears the
    current turn and sets the state to [AWAITING_USER_INPUT], and the
    closed turn has no executed actions; [process_confirmation] with
    [confirmed=False] returns the empty executed list and the fixed
    cancellation message, and leaves the world as it was whatever the
    registry holds: no action is dispatched. *)
Theorem rejection_closes_turn :
  forall c t,
    reachable c ->
    current_turn c = Some t ->
    exists c',
      set_confirmation false c = Ok c'
      /\ turns c' = turns c ++ [with_confirmed false t]
      /\ current_turn c' = None
      /\ state c' = AWAITING_USER_INPUT
      /\ executed_actions (with_confirmed false t) = PList []
      /\ forall action_handlers w,
           process_confirmation py_str c false action_handlers w
           = (w, c',
              Ok {| cr_confirmed := false;
                    cr_executed_actions := [];
                    cr_response := py "Actions cancelled as requested.";
                    cr_conversation_state :=
                      ConversationState_value AWAITING_USER_INPUT |}).
Proof.
  intros c t Hreach Hc.
  destruct (reachable_invariant c Hreach) as [_ Hcur].
  destruct (Hcur t Hc) as [_ Hex].
  unfold process_confirmation, set_confirmation. rewrite Hc.
  eexists. split; [reflexivity|]. simpl. repeat split; done.
Qed.

(** C8, as the code has it: for an action whose type has no handler in
    the registry (or when no registry is given), dispatch calls no
    handler, so the world is as before, and gives a record with status
    [failed] and the error field ["No handler available"]; the text
    ["No handler available for action type: <type>"] is the message
    added to the errors of the batch. *)
Theorem missing_handler_fails_action :
  forall action_handlers d t w,
    action_type_of d = PStr t ->
    handler_for action_handlers t = None ->
    exists record,
      dispatch py_str action_handlers (PDict d) w
      = (w, Ok (record,
                Some (py "No handler available for action type: " ++ t)))
      /\ py_subscript record status_key = Some (PStr (py "failed"))
      /\ py_subscript record (py "error")
         = Some (PStr (py "No handler available"))
      /\ record_of (PDict d) record.
Proof.
  intros action_handlers d t w Ht Hh.
  destruct keys_distinct as (H1 & H2 & H3).
  exists (failed_record d (py "No handler available")).
  split; [|split; [|split]].
  - unfold dispatch. fold (action_type_of d). rewrite Ht.
    destruct action_handlers as [handlers|]; [|done].
    simpl in Hh. rewrite Hh. by case_bool_decide.
  - simpl. rewrite dict_get_set_ne by done. apply dict_get_set_eq.
  - simpl. apply dict_get_set_eq.
  - apply failed_record_of.
Qed.

End DispatcherProperties.

Lemma conv_proposed_reachable : reachable conv_proposed.
Proof.
  eapply reach_proposed; [apply reach_start, reach_init | reflexivity].
Qed.

Lemma process_confirmation_dispatches_each_action_witness :
  current_turn conv_proposed = Some proposed_turn
  /\ proposed_actions proposed_turn = PList sample_actions
  /\ Forall is_dict sample_actions
  /\ exists w' executed errors c',
       process_confirmation str_scalar conv_proposed true (Some sample_handlers) []
       = (w', c',
          Ok {| cr_confirmed := true;
                cr_executed_actions := executed;
                cr_response := batch_response errors;
                cr_conversation_state :=
                  ConversationState_value AWAITING_USER_INPUT |})
       /\ dispatched str_scalar (Some sample_handlers) [] sample_actions
            w' executed errors
       /\ length executed = length sample_actions
       /\ Forall2 record_of sample_actions executed
       /\ turns c'
          = turns conv_proposed
            ++ [with_executed (PList executed) (with_confirmed true proposed_turn)]
       /\ current_turn c' = None
       /\ state c' = AWAITING_USER_INPUT.
Proof.
  assert (Forall is_dict sample_actions) as Hd by (repeat constructor).
  split; [reflexivity|]. split; [reflexivity|]. split; [exact Hd|].
  exact (process_confirmation_dispatches_each_action str_scalar
           conv_proposed proposed_turn sample_actions (Some sample_handlers) []
           eq_refl eq_refl Hd).
Defined.

(** The sample batch: the first action is executed, the second has no
    handler, the handler of the third raises; the third is dispatched all
    the same, and the graph store was asked for the first and the third. *)
Example sample_batch :
  exists c' reply,
    process_confirmation str_scalar conv_proposed true (Some sample_handlers) []
    = ([stoicism_action; link_action], c', Ok reply)
    /\ statuses (cr_executed_actions reply)
       = [Some (PStr (py "executed")); Some (PStr (py "failed"));
          Some (PStr (py "failed"))]
    /\ cr_response reply
       = py "Some actions could not be completed: No handler available for action type: create_concept; Error executing create_relationship action: graph store unavailable".
Proof. eexists _, _. split; [vm_compute; reflexivity|]. by vm_compute. Qed.

Lemma rejection_closes_turn_witness :
  reachable conv_proposed
  /\ current_turn conv_proposed = Some proposed_turn
  /\ exists c',
       set_confirmation false conv_proposed = Ok c'
       /\ turns c' = turns conv_proposed ++ [with_confirmed false proposed_turn]
       /\ current_turn c' = None
       /\ state c' = AWAITING_USER_INPUT
       /\ executed_actions (with_confirmed false proposed_turn) = PList []
       /\ forall (action_handlers :
                    option (gmap pystr (pyvalue -> list pyvalue -> list pyvalue * outcome)))
                 w,
            process_confirmation str_scalar conv_proposed false action_handlers w
            = (w, c',
               Ok {| cr_confirmed := false;
                     cr_executed_actions := [];
                     cr_response := py "Actions cancelled as requested.";
                     cr_conversation_state :=
                       ConversationState_value AWAITING_USER_INPUT |}).
Proof.
  split; [exact conv_proposed_reachable|]. split; [reflexivity|].
  exact (rejection_closes_turn str_scalar conv_proposed proposed_turn
           conv_proposed_reachable eq_refl).
Defined.

Lemma missing_handler_fails_action_witness :
  action_type_of concept_fields = PStr (py "create_concept")
  /\ handler_for (Some sample_handlers) (py "create_concept") = None
  /\ exists record,
       dispatch str_scalar (Some sample_handlers) (PDict concept_fields) []
       = ([], Ok (record,
                  Some (py "No handler available for action type: "
                        ++ py "create_concept")))
       /\ py_subscript record status_key = Some (PStr (py "failed"))
       /\ py_subscript record (py "error")
          = Some (PStr (py "No handler available"))
       /\ record_of (PDict concept_fields) record.
Proof.
  split; [reflexivity|]. split; [reflexivity|].
  exact (missing_handler_fails_action str_scalar (Some sample_handlers)
           concept_fields (py "create_concept") [] eq_refl eq_refl).
Defined.

(** C8 as the specification words it fails: the error field of the record
    is not the text that names the type. *)
Lemma missing_handler_error_field_counterexample :
  handler_for (Some sample_handlers) (py "create_concept") = None
  /\ exists record message,
       dispatch str_scalar (Some sample_handlers) concept_action []
       = ([], Ok (record, message))
       /\ py_subscript record (py "error")
          <> Some (PStr (py "No handler available for action type: create_concept")).
Proof.
  split; [reflexivity|]. eexists _, _. split; [vm_compute; reflexivity|].
  by vm_compute.
Qed.

(** ** The extractor *)

Section ExtractorProperties.

Variable json_loads : pystr -> option pyvalue.

(** Where the block is the first one, the two [find] calls hit its
    fences, the slice is its content and the rest is the text around it. *)
Lemma fenced_block_found pre content post :
  block_is_first pre content post ->
  find (fenced pre content post) (py "```json") 0 = Some (length pre)
  /\ find (fenced pre content post) (py "```") (length pre + 6)
     = Some (length pre + 7 + length content)
  /\ slice (fenced pre content post) (length pre + 7)
       (length pre + 7 + length content) = content
  /\ take (length pre) (fenced pre content post)
     ++ drop (length pre + 7 + length content + 3) (fenced pre content post)
     = pre ++ post.
Proof.
  intros [H1 H2].
  split; [by apply find_Some_first_at|]. split; [by apply find_Some_first_at|].
  unfold fenced, slice. split.
  - rewrite drop_app_add. change 7 with (length fence_json).
    rewrite drop_app_length.
    replace (length pre + length fence_json + length content
             - (length pre + length fence_json))
      with (length content) by lia.
    by rewrite take_app_length.
  - rewrite take_app_length. f_equal.
    replace (length pre + 7 + length content + 3)
      with (length pre + (length fence_json + (length content + length fence)))
      by (change (length fence_json) with 7; change (length fence) with 3; lia).
    by rewrite !drop_app_add, drop_app_length.
Qed.

(** The extractor on such a response, by what [json.loads] makes of the
    content. *)
Lemma extract_fenced pre content post :
  block_is_first pre content post ->
  _extract_actions_from_response json_loads (fenced pre content post)
  = match json_loads (strip content) with
    | None => (fenced pre content post, PList [])
    | Some action_data =>
        match py_contains action_data actions_key with
        | None => (fenced pre content post, PList [])
        | Some present =>
            match (if present then py_subscript action_data actions_key
                   else Some (PList [])) with
            | None => (fenced pre content post, PList [])
            | Some proposed => (strip (pre ++ post), proposed)
            end
        end
    end.
Proof.
  intros H. destruct (fenced_block_found pre content post H) as (F1 & F2 & F3 & F4).
  unfold _extract_actions_from_response. rewrite F1, F2, F3.
  by rewrite F4.
Qed.

(** C7: for a response made of prose around one json-tagged fenced block
    whose content is a JSON object with a [proposed_actions] entry, the
    extractor returns the prose with the block taken out and the
    whitespace around it trimmed, and the value of the entry as it was
    decoded. *)
Theorem extraction_round_trip :
  forall pre content post d actions,
    block_is_first pre content post ->
    json_loads (strip content) = Some (PDict d) ->
    dict_get d actions_key = Some actions ->
    _extract_actions_from_response json_loads (fenced pre content post)
    = (strip (pre ++ post), actions).
Proof.
  intros pre content post d actions Hb Hj Hk.
  rewrite extract_fenced by done. rewrite Hj. simpl. rewrite Hk.
  by rewrite bool_decide_eq_true_2.
Qed.

(** C3, as the code has it. The extractor is total. It returns the raw
    response and the empty list when the response has no json-tagged
    fence, when no fence follows the tag, and when [json.loads] raises on
    the content or gives [None], a boolean or a number. When the content
    is a JSON object without a [proposed_actions] key the list is empty
    too, but the text returned is the response without the block,
    trimmed. *)
Theorem extraction_falls_back :
  (forall response,
      (forall j, ~ occurs_at fence_json response j) ->
      _extract_actions_from_response json_loads response = (response, PList []))
  /\ (forall response j,
         first_at fence_json response 0 j ->
         (forall k, j + 6 <= k -> ~ occurs_at fence response k) ->
         _extract_actions_from_response json_loads response
         = (response, PList []))
  /\ (forall pre content post,
         block_is_first pre content post ->
         no_container (json_loads (strip content)) ->
         _extract_actions_from_response json_loads (fenced pre content post)
         = (fenced pre content post, PList []))
  /\ (forall pre content post d,
         block_is_first pre content post ->
         json_loads (strip content) = Some (PDict d) ->
         dict_get d actions_key = None ->
         _extract_actions_from_response json_loads (fenced pre content post)
         = (strip (pre ++ post), PList [])).
Proof.
  split; [|split; [|split]].
  - intros response Hno. unfold _extract_actions_from_response.
    assert (find response (py "```json") 0 = None) as ->; [|done].
    apply find_None_no_occurrence. intros j _. apply Hno.
  - intros response j Hj Hno. unfold _extract_actions_from_response.
    assert (find response (py "```json") 0 = Some j) as ->
      by (by apply find_Some_first_at).
    assert (find response (py "```") (j + 6) = None) as ->; [|done].
    by apply find_None_no_occurrence.
  - intros pre content post Hb Hn. rewrite extract_fenced by done.
    by destruct (json_loads (strip content)) as [[]|].
  - intros pre content post d Hb Hj Hk. rewrite extract_fenced by done.
    rewrite Hj. simpl. rewrite Hk. by rewrite bool_decide_eq_false_2.
Qed.

End ExtractorProperties.

(** On a given text the positions of the fences are found by running
    [find]. *)
Ltac locate_fences := split; apply find_Some_first_at; by vm_compute.

Lemma sample_block_is_first : block_is_first sample_pre sample_content sample_post.
Proof. locate_fences. Qed.

Lemma extraction_round_trip_witness :
  block_is_first sample_pre sample_content sample_post
  /\ json_loads_core (strip sample_content)
     = Some (PDict [ (actions_key, sample_action_list) ])
  /\ dict_get [ (actions_key, sample_action_list) ] actions_key
     = Some sample_action_list
  /\ _extract_actions_from_response json_loads_core
       (fenced sample_pre sample_content sample_post)
     = (strip (sample_pre ++ sample_post), sample_action_list).
Proof.
  split; [exact sample_block_is_first|]. split; [reflexivity|].
  split; [reflexivity|].
  exact (extraction_round_trip json_loads_core sample_pre sample_content
           sample_post [ (actions_key, sample_action_list) ] sample_action_list
           sample_block_is_first eq_refl eq_refl).
Defined.

(** The sample, spelled out: the text shown is the prose, without the block
    and without the blanks at its end. *)
Example sample_round_trip :
  _extract_actions_from_response json_loads_core
    (fenced sample_pre sample_content sample_post)
  = (text [ "I will add a note."; ""; "Shall I proceed?" ], sample_action_list).
Proof. by vm_compute. Qed.

Lemma plain_response_no_fence j : ~ occurs_at fence_json plain_response j.
Proof.
  assert (find plain_response fence_json 0 = None) as H by (by vm_compute).
  apply (proj1 (find_None_no_occurrence _ _ _) H). lia.
Qed.

Lemma unclosed_response_fence :
  first_at fence_json unclosed_response 0 6
  /\ forall k, 6 + 6 <= k -> ~ occurs_at fence unclosed_response k.
Proof.
  split; [apply find_Some_first_at; by vm_compute|].
  apply find_None_no_occurrence. by vm_compute.
Qed.

Lemma malformed_block_is_first : block_is_first [] malformed_content [].
Proof. locate_fences. Qed.

Lemma keyless_block_is_first : block_is_first [] (py "{}") [].
Proof. locate_fences. Qed.

Lemma extraction_falls_back_witness :
  _extract_actions_from_response json_loads_core plain_response
  = (plain_response, PList [])
  /\ _extract_actions_from_response json_loads_core unclosed_response
     = (unclosed_response, PList [])
  /\ (block_is_first [] malformed_content []
      /\ no_container (json_loads_core (strip malformed_content))
      /\ _extract_actions_from_response json_loads_core
           (fenced [] malformed_content [])
         = (fenced [] malformed_content [], PList []))
  /\ (block_is_first [] (py "{}") []
      /\ json_loads_core (strip (py "{}")) = Some (PDict [])
      /\ dict_get [] actions_key = None
      /\ _extract_actions_from_response json_loads_core (fenced [] (py "{}") [])
         = (strip ([] ++ []), PList [])).
Proof.
  destruct (extraction_falls_back json_loads_core) as (A & B & C & D).
  split; [exact (A plain_response plain_response_no_fence)|].
  split; [exact (B unclosed_response 6 (proj1 unclosed_response_fence)
                   (proj2 unclosed_response_fence))|].
  split.
  - split; [exact malformed_block_is_first|]. split; [exact I|].
    exact (C [] malformed_content [] malformed_block_is_first I).
  - split; [exact keyless_block_is_first|]. split; [reflexivity|].
    split; [reflexivity|].
    exact (D [] (py "{}") [] [] keyless_block_is_first eq_refl eq_refl).
Defined.

(** C3 as the specification words it fails: the content [{}] is valid JSON
    without the key, and the extractor does not return the raw response. *)
Lemma extraction_missing_key_counterexample :
  json_loads_core (py "{}") = Some (PDict [])
  /\ dict_get [] actions_key = None
  /\ _extract_actions_from_response json_loads_core keyless_response
     = ([], PList [])
  /\ _extract_actions_from_response json_loads_core keyless_response
     <> (keyless_response, PList []).
Proof. by vm_compute. Qed.

(** ** Processing the user's input *)




Section InputProperties.

Variable json_loads : pystr -> option pyvalue.
Variable py_format : pyvalue -> pystr -> res pystr.

Local Abbreviation process := (process_user_input json_loads py_format).
Local Abbreviation prompt_for input c :=
  (_create_analysis_prompt py_format input
     (get_context_for_ai (start_new_turn input c) 5)).
Local Abbreviation extract := (_extract_actions_from_response json_loads).


(** What the lines after the prompt do, for a [format] under which the
    prompt is built and a client that returns. The interpreter's [format]
    is not such a one: see [process_user_input_prompt_refused]. *)
Lemma process_user_input_conversation ai_manager c input context h prompt result :
  prompt_for input c = Ok prompt ->
  (forall ctx, ai_manager prompt ctx = Ok result) ->
  (process ai_manager c input context h).1.2
  = with_state AWAITING_CONFIRMATION
      (with_current
         (Some (with_proposed (extract (result_response result)).2
                  (with_response (extract (result_response result)).1
                     (fresh_turn input))))
         (start_new_turn input c)).
Proof.
  intros Hp Hq. unfold process_user_input. rewrite Hp.
  destruct (merged_context_of context h) as [m h1].
  rewrite Hq. destruct (extract _) as [r p].
  unfold set_proposed_actions. rewrite start_new_turn_current.
  by destruct (py_len p).
Qed.

(** The template as the interpreter reads it: when [format] refuses the
    specification of the innermost field of the JSON sample, the call
    raises before anything but [start_new_turn] has happened. *)
Lemma process_user_input_prompt_refused ai_manager c input context h e :
  py_format (PStr (py "name")) spec_category = Raise e ->
  process ai_manager c input context h = (h, start_new_turn input c, Raise e).
Proof.
  intros Hf. unfold process_user_input, _create_analysis_prompt,
    field_proposed_actions, field_create_note.
  by rewrite Hf.
Qed.





End InputProperties.




(** With a [format] that refuses the specifications of the template, the
    call raises right after [start_new_turn]: the state is [ANALYZING], the
    client is not queried and the caller's list is as it was. *)
Example prompt_refused_sample :
  process_user_input json_loads_core format_strict sample_client conv_fresh
    (py "x") (Some 1%positive) caller_store
  = (caller_store, start_new_turn (py "x") conv_fresh,
     Raise (ValueError (py "Invalid format specifier"))).
Proof.
  exact (process_user_input_prompt_refused json_loads_core format_strict
           sample_client conv_fresh (py "x") (Some 1%positive) caller_store
           (ValueError (py "Invalid format specifier")) eq_refl).
Qed.

(** * Further properties of the code *)

(** ** The state tag and the open turn *)

(** In every conversation a caller can build, the state tag tells whether a
    turn is open: none is open in [INITIAL] and [AWAITING_USER_INPUT], one
    is open in [ANALYZING], [AWAITING_CONFIRMATION] and [EXECUTING]; the
    history is empty in [INITIAL]; and no method ever sets [ERROR]. *)
Theorem state_tells_open_turn :
  forall c,
    reachable c ->
    state c <> ERROR
    /\ (current_turn c = None
        <-> state c = INITIAL \/ state c = AWAITING_USER_INPUT)
    /\ (state c = INITIAL -> turns c = []).
Proof.
  induction 1 as [id | input c _ _ | r a c c' _ _ Hstep
                 | b c c' _ _ Hstep | e c c' _ _ Hstep].
  - simpl. by intuition.
  - rewrite start_new_turn_state, start_new_turn_current.
    split; [done|]. split; [|done]. split; [done | by intros [|]].
  - unfold set_proposed_actions in Hstep.
    destruct (current_turn c); [|done]. injection Hstep as <-. simpl.
    split; [done|]. split; [|done]. split; [done | by intros [|]].
  - unfold set_confirmation in Hstep.
    destruct (current_turn c); [|done].
    destruct b; injection Hstep as <-; simpl.
    + split; [done|]. split; [|done]. split; [done | by intros [|]].
    + split; [done|]. split; [|done]. split; [by right | done].
  - unfold set_executed_actions in Hstep.
    destruct (current_turn c); [|done]. injection Hstep as <-. simpl.
    split; [done|]. split; [|done]. split; [by right | done].
Qed.

Lemma state_tells_open_turn_witness :
  reachable conv_proposed
  /\ state conv_proposed <> ERROR
  /\ (current_turn conv_proposed = None
      <-> state conv_proposed = INITIAL \/ state conv_proposed = AWAITING_USER_INPUT)
  /\ (state conv_proposed = INITIAL -> turns conv_proposed = []).
Proof.
  split; [exact conv_proposed_reachable|].
  exact (state_tells_open_turn conv_proposed conv_proposed_reachable).
Defined.

(** ** The rendered history *)

Lemma last_items_positive {A} (k : Z) (l : list A) :
  (0 < k)%Z -> last_items k l = drop (length l - Z.to_nat k) l.
Proof.
  intros Hk. unfold last_items.
  assert ((- k <? 0)%Z = true) as -> by (apply Z.ltb_lt; lia).
  f_equal. lia.
Qed.

Lemma last_items_nonpositive {A} (k : Z) (l : list A) :
  (k <= 0)%Z -> last_items k l = drop (Z.to_nat (- k)) l.
Proof.
  intros Hk. unfold last_items.
  assert ((- k <? 0)%Z = false) as -> by (apply Z.ltb_ge; lia).
  destruct (decide (Z.to_nat (- k) <= length l)) as [Hle|Hgt].
  - f_equal. lia.
  - rewrite !drop_ge by lia. done.
Qed.

(** The text [get_context_for_ai] makes is the rendering of the turns it
    keeps, followed by what it adds for the open turn. *)
Lemma get_context_for_ai_split c k :
  get_context_for_ai c k
  = render_turns 0 (last_items k (turns c))
    ++ get_context_for_ai (with_turns [] c) k.
Proof.
  unfold get_context_for_ai. simpl.
  assert ((if (0 <? length (turns c))%nat then last_items k (turns c) else [])
          = last_items k (turns c)) as ->.
  { destruct (turns c) as [|t l] eqn:E; [|done]. simpl.
    unfold last_items. by rewrite drop_nil. }
  destruct (current_turn c) as [t|]; [|by rewrite app_nil_r].
  destruct (user_input t) as [u|]; [|by rewrite app_nil_r].
  case_bool_decide; [by rewrite app_nil_r | done].
Qed.

(** With a positive [max_turns], only the last [max_turns] turns of the
    history are rendered, numbered from 1 whatever their place in the
    history: the turns before them leave no trace in the text. *)
Theorem history_keeps_last_turns :
  forall c k older recent,
    (0 < k)%Z ->
    turns c = older ++ recent ->
    length recent = Z.to_nat k ->
    get_context_for_ai c k
    = render_turns 0 recent ++ get_context_for_ai (with_turns [] c) k.
Proof.
  intros c k older recent Hk Ht Hlen.
  rewrite get_context_for_ai_split, last_items_positive by done.
  rewrite Ht, length_app, Hlen.
  replace (length older + Z.to_nat k - Z.to_nat k) with (length older) by lia.
  by rewrite drop_app_length.
Qed.

(** With [max_turns = 0] the slice [turns[-0:]] is the whole list, so every
    turn of the history is rendered; with a negative [max_turns] the first
    [-max_turns] turns are left out and all later ones rendered. *)
Theorem history_unbounded_without_positive_limit :
  forall c k,
    (k <= 0)%Z ->
    get_context_for_ai c k
    = render_turns 0 (drop (Z.to_nat (- k)) (turns c))
      ++ get_context_for_ai (with_turns [] c) k.
Proof.
  intros c k Hk. by rewrite get_context_for_ai_split, last_items_nonpositive.
Qed.

(** With a positive [max_turns] the rendered history is empty exactly when
    the conversation has no closed turn and no open turn with a non-empty
    input. *)
Theorem history_empty_iff :
  forall c k,
    (0 < k)%Z ->
    get_context_for_ai c k = []
    <-> turns c = []
        /\ (current_turn c = None
            \/ exists t, current_turn c = Some t
                         /\ (user_input t = None \/ user_input t = Some [])).
Proof.
  intros c k Hk. rewrite get_context_for_ai_split, last_items_positive by done.
  split.
  - intros H. apply app_eq_nil in H as [Hr Hc]. split.
    + destruct (turns c) as [|t l] eqn:E; [done|]. exfalso.
      assert (drop (length (t :: l) - Z.to_nat k) (t :: l) <> []) as Hne.
      { intros Hd. apply (f_equal length) in Hd.
        rewrite length_drop in Hd. simpl in Hd. lia. }
      by destruct (drop _ (t :: l)).
    + unfold get_context_for_ai in Hc. simpl in Hc.
      destruct (current_turn c) as [t|]; [|by left]. right. exists t.
      split; [done|]. destruct (user_input t) as [u|]; [|by left]. right.
      case_bool_decide; [by subst | discriminate Hc].
  - intros [Ht Hc]. rewrite Ht. simpl. unfold get_context_for_ai. simpl.
    destruct Hc as [->|(t & -> & [->| ->])]; done.
Qed.

Lemma history_keeps_last_turns_witness :
  (0 < 2)%Z
  /\ turns conv_busy = [fresh_turn (py "one")] ++ [fresh_turn (py "two"); fresh_turn (py "three")]
  /\ length [fresh_turn (py "two"); fresh_turn (py "three")] = Z.to_nat 2
  /\ get_context_for_ai conv_busy 2
     = render_turns 0 [fresh_turn (py "two"); fresh_turn (py "three")]
       ++ get_context_for_ai (with_turns [] conv_busy) 2.
Proof.
  split; [lia|]. split; [reflexivity|]. split; [reflexivity|].
  exact (history_keeps_last_turns conv_busy 2 [fresh_turn (py "one")]
           [fresh_turn (py "two"); fresh_turn (py "three")]
           eq_refl eq_refl eq_refl).
Defined.

Lemma history_unbounded_without_positive_limit_witness :
  (0 <= 0)%Z
  /\ get_context_for_ai conv_busy 0
     = render_turns 0 (drop (Z.to_nat (- 0)) (turns conv_busy))
       ++ get_context_for_ai (with_turns [] conv_busy) 0.
Proof.
  split; [lia|].
  exact (history_unbounded_without_positive_limit conv_busy 0
           (Z.le_refl 0)).
Defined.

Lemma history_empty_iff_witness :
  (0 < 5)%Z
  /\ (get_context_for_ai conv_fresh 5 = []
      <-> turns conv_fresh = []
          /\ (current_turn conv_fresh = None
              \/ exists t, current_turn conv_fresh = Some t
                           /\ (user_input t = None \/ user_input t = Some []))).
Proof.
  split; [lia|]. exact (history_empty_iff conv_fresh 5 eq_refl).
Defined.

(** ** Confirmations *)

Section ConfirmationProperties.

Variable py_str : pyvalue -> pystr.
Context {W : Type}.
Implicit Types (action_handlers : option (gmap pystr (pyvalue -> W -> W * outcome))).
Implicit Types (w : W) (d : pydict).

Lemma run_actions_cons action_handlers action rest w executed errors :
  run_actions py_str action_handlers (action :: rest) w executed errors
  = match dispatch py_str action_handlers action w with
    | (w', Raise e) => (w', Raise e)
    | (w', Ok (executed_action, error)) =>
        run_actions py_str action_handlers rest w'
          (executed ++ [executed_action])
          (errors ++ match error with Some m => [m] | None => [] end)
    end.
Proof. reflexivity. Qed.

(** A run of dictionaries at the head of a batch is dispatched in order,
    and the loop goes on with what follows it. *)
Lemma run_actions_dicts_then action_handlers dicts :
  Forall is_dict dicts ->
  forall w,
  exists w' records messages,
    dispatched py_str action_handlers w dicts w' records messages
    /\ forall rest executed errors,
         run_actions py_str action_handlers (dicts ++ rest) w executed errors
         = run_actions py_str action_handlers rest w'
             (executed ++ records) (errors ++ messages).
Proof.
  induction 1 as [|action dicts Hd _ IH]; intros w.
  - exists w, [], []. split; [constructor|].
    intros rest executed errors. by rewrite !app_nil_r.
  - destruct action as [| | | | | |d]; try done.
    destruct (dispatch_dict py_str action_handlers d w)
      as (w1 & record & error & Hdis & _).
    destruct (IH w1) as (w' & records & messages & Hrest & Heq).
    exists w', (record :: records), (option_list error ++ messages).
    split; [by econstructor|].
    intros rest executed errors.
    rewrite <- app_comm_cons, run_actions_cons, Hdis, Heq.
    rewrite <- !app_assoc. by destruct error.
Qed.

(** What a confirmed batch of dictionaries comes to. *)
Lemma process_confirmation_batch c t actions action_handlers w :
  current_turn c = Some t ->
  proposed_actions t = PList actions ->
  Forall is_dict actions ->
  exists w' executed errors,
    dispatched py_str action_handlers w actions w' executed errors
    /\ process_confirmation py_str c true action_handlers w
       = (w',
          with_state AWAITING_USER_INPUT
            (with_current None
               (with_turns
                  (turns c ++ [with_executed (PList executed) (with_confirmed true t)])
                  c)),
          Ok {| cr_confirmed := true;
                cr_executed_actions := executed;
                cr_response := batch_response errors;
                cr_conversation_state :=
                  ConversationState_value AWAITING_USER_INPUT |}).
Proof.
  intros Hc Hp Hd.
  destruct (run_actions_dispatched py_str action_handlers actions Hd w [] [])
    as (w' & executed & errors & Hrun & Heq).
  simpl in Heq. exists w', executed, errors. split; [done|].
  unfold process_confirmation, set_confirmation. rewrite Hc. simpl. rewrite Hp.
  destruct actions as [|action rest].
  - by inversion Hrun; subst.
  - change (py_truthy (PList (action :: rest))) with true. cbv iota.
    change (py_iter (PList (action :: rest))) with (Some (action :: rest)).
    cbv iota. by rewrite Heq.
Qed.

(** [process_confirmation] on a confirmed open turn, by what the loop
    comes to. *)
Lemma process_confirmation_confirmed c t action_handlers w :
  current_turn c = Some t ->
  process_confirmation py_str c true action_handlers w
  = match confirmed_loop py_str action_handlers (proposed_actions t) w with
    | (w', Raise e) =>
        (w', with_state EXECUTING (with_current (Some (with_confirmed true t)) c),
         Raise e)
    | (w', Ok (executed, errors)) =>
        (w',
         with_state AWAITING_USER_INPUT
           (with_current None
              (with_turns
                 (turns c ++ [with_executed (PList executed) (with_confirmed true t)])
                 c)),
         Ok {| cr_confirmed := true;
               cr_executed_actions := executed;
               cr_response := batch_response errors;
               cr_conversation_state :=
                 ConversationState_value AWAITING_USER_INPUT |})
    end.
Proof.
  intros Hc. unfold process_confirmation, set_confirmation, confirmed_loop.
  rewrite Hc. simpl.
  destruct (py_truthy (proposed_actions t)); [|done].
  destruct (py_iter (proposed_actions t)) as [actions|]; [|done].
  by destruct (run_actions _ _ _ _ _ _) as [w1 [[executed errors]|e]].
Qed.

(** [process_confirmation] on a rejected open turn. *)
Lemma process_confirmation_rejected c t action_handlers w :
  current_turn c = Some t ->
  process_confirmation py_str c false action_handlers w
  = (w,
     with_state AWAITING_USER_INPUT
       (with_current None (with_turns (turns c ++ [with_confirmed false t]) c)),
     Ok {| cr_confirmed := false;
           cr_executed_actions := [];
           cr_response := py "Actions cancelled as requested.";
           cr_conversation_state :=
             ConversationState_value AWAITING_USER_INPUT |}).
Proof.
  intros Hc. unfold process_confirmation, set_confirmation. by rewrite Hc.
Qed.

(** Whenever [process_confirmation] returns, the turn that was open is
    closed: it is the new last turn of the history, with the user's answer
    as its [confirmed] flag and, when confirmed, the executed list of the
    reply; no turn is open and the state is [AWAITING_USER_INPUT]. *)
Theorem confirmation_return_closes_turn :
  forall c conf action_handlers w w' c' reply,
    process_confirmation py_str c conf action_handlers w = (w', c', Ok reply) ->
    exists t,
      current_turn c = Some t
      /\ current_turn c' = None
      /\ state c' = AWAITING_USER_INPUT
      /\ turns c'
         = turns c
           ++ [with_executed
                 (if conf then PList (cr_executed_actions reply)
                  else executed_actions t)
                 (with_confirmed conf t)]
      /\ cr_confirmed reply = conf
      /\ cr_conversation_state reply = ConversationState_value AWAITING_USER_INPUT
      /\ conversation_id c' = conversation_id c
      /\ metadata c' = metadata c.
Proof.
  intros c conf action_handlers w w' c' reply Hret.
  destruct (current_turn c) as [t|] eqn:Hc.
  - exists t. split; [done|]. destruct conf.
    + rewrite (process_confirmation_confirmed c t) in Hret by done.
      destruct (confirmed_loop _ _ _ _) as [w1 [[executed errors]|e]]; [|done].
      by injection Hret as <- <- <-.
    + rewrite (process_confirmation_rejected c t) in Hret by done.
      by injection Hret as <- <- <-.
  - unfold process_confirmation, set_confirmation in Hret. by rewrite Hc in Hret.
Qed.

(** The user's answer to a turn is taken once: after [process_confirmation]
    returned, a second call on the conversation raises the error of a
    missing turn, calls no handler and changes nothing. *)
Theorem second_confirmation_raises :
  forall c conf action_handlers w w' c' reply,
    process_confirmation py_str c conf action_handlers w = (w', c', Ok reply) ->
    forall conf' action_handlers' w'',
      process_confirmation py_str c' conf' action_handlers' w''
      = (w'', c', Raise no_active_turn).
Proof.
  intros c conf action_handlers w w' c' reply Hret conf' action_handlers' w''.
  assert (current_turn c' = None) as Hnone.
  { destruct (current_turn c) as [t|] eqn:Hc.
    - destruct conf.
      + rewrite (process_confirmation_confirmed c t) in Hret by done.
        destruct (confirmed_loop _ _ _ _) as [w1 [[executed errors]|e]]; [|done].
        by injection Hret as <- <- <-.
      + rewrite (process_confirmation_rejected c t) in Hret by done.
        by injection Hret as <- <- <-.
    - unfold process_confirmation, set_confirmation in Hret.
      by rewrite Hc in Hret. }
  unfold process_confirmation, set_confirmation. by rewrite Hnone.
Qed.

(** A proposed action that is not a dictionary aborts the batch: the
    actions before it have been dispatched, their records are dropped with
    the exception, the turn stays open and the state stays [EXECUTING]. *)
Theorem non_mapping_action_aborts_batch :
  forall c t dicts action rest action_handlers w,
    current_turn c = Some t ->
    proposed_actions t = PList (dicts ++ action :: rest) ->
    Forall is_dict dicts ->
    ~ is_dict action ->
    exists w' records messages,
      dispatched py_str action_handlers w dicts w' records messages
      /\ process_confirmation py_str c true action_handlers w
         = (w',
            with_state EXECUTING (with_current (Some (with_confirmed true t)) c),
            Raise (not_a_mapping action)).
Proof.
  intros c t dicts action rest action_handlers w Hc Hp Hd Hn.
  destruct (run_actions_dicts_then action_handlers dicts Hd w)
    as (w' & records & messages & Hrun & Heq).
  exists w', records, messages. split; [done|].
  rewrite (process_confirmation_confirmed c t) by done. rewrite Hp.
  unfold confirmed_loop.
  assert (py_truthy (PList (dicts ++ action :: rest)) = true) as ->
    by (by destruct dicts).
  cbn [py_iter]. rewrite Heq, run_actions_cons.
  by destruct action.
Qed.

Lemma record_status_executed d result :
  executed_status (executed_record d result).
Proof.
  destruct keys_distinct as (H1 & H2 & H3). unfold executed_status. simpl.
  rewrite dict_get_set_ne by done. apply dict_get_set_eq.
Qed.

Lemma record_status_failed d error :
  ~ executed_status (failed_record d error).
Proof.
  destruct keys_distinct as (H1 & H2 & H3). unfold executed_status. simpl.
  rewrite dict_get_set_ne by done. by rewrite dict_get_set_eq.
Qed.

(** Dispatch gives an error message exactly when the record is not one of
    an executed action. *)
Lemma dispatch_error_iff action_handlers d w w1 record error :
  dispatch py_str action_handlers (PDict d) w = (w1, Ok (record, error)) ->
  error = None <-> executed_status record.
Proof.
  pose proof (record_status_executed d) as He.
  pose proof (record_status_failed d) as Hf.
  unfold dispatch, no_handler, execution_error.
  destruct action_handlers as [handlers|];
    [|intros [= <- <- <-]; split; [done | by intros ?%Hf]].
  case_bool_decide; [intros [= <- <- <-]; split; [done | by intros ?%Hf]|].
  destruct (default _ _) as [| | | |t| |];
    try (intros [= <- <- <-]; split; [done | by intros ?%Hf]).
  destruct (handlers !! t) as [handle|];
    [|intros [= <- <- <-]; split; [done | by intros ?%Hf]].
  destruct (handle (PDict d) w) as [w2 [result|msg]]; intros [= <- <- <-].
  - split; [intros _; apply He | done].
  - split; [done | by intros ?%Hf].
Qed.

Lemma dispatched_errors_iff action_handlers w actions w' records messages :
  Forall is_dict actions ->
  dispatched py_str action_handlers w actions w' records messages ->
  messages = [] <-> Forall executed_status records.
Proof.
  intros Hd Hrun.
  induction Hrun as [|w action w1 record error rest w2 records errors Hdis _ IH].
  - split; [constructor | done].
  - apply Forall_cons in Hd as [Ha Hrest]. specialize (IH Hrest).
    destruct action as [| | | | | |d]; try done.
    apply dispatch_error_iff in Hdis. rewrite Forall_cons. split.
    + intros H. apply app_eq_nil in H as [He Hm]. split; [|by apply IH].
      apply Hdis. by destruct error.
    + intros [Hr Hrs]. apply Hdis in Hr as ->. simpl. by apply IH.
Qed.

Lemma batch_response_success errors :
  batch_response errors = py "All actions were completed successfully."
  <-> errors = [].
Proof.
  destruct errors as [|m errors]; [done|]. split; [|done].
  unfold batch_response. intros H. discriminate H.
Qed.

(** A confirmed batch is answered with the message of success exactly when
    every record of the reply has the status [executed]. *)
Theorem batch_succeeds_iff_all_executed :
  forall c t actions action_handlers w w' c' reply,
    current_turn c = Some t ->
    proposed_actions t = PList actions ->
    Forall is_dict actions ->
    process_confirmation py_str c true action_handlers w = (w', c', Ok reply) ->
    cr_response reply = py "All actions were completed successfully."
    <-> Forall executed_status (cr_executed_actions reply).
Proof.
  intros c t actions action_handlers w w' c' reply Hc Hp Hd Hret.
  destruct (process_confirmation_batch c t actions action_handlers w Hc Hp Hd)
    as (w1 & executed & errors & Hrun & Heq).
  rewrite Heq in Hret. injection Hret as <- <- <-. simpl.
  rewrite batch_response_success. by eapply dispatched_errors_iff.
Qed.

End ConfirmationProperties.

Lemma confirmed_run_returns :
  process_confirmation str_scalar conv_proposed true (Some sample_handlers) []
  = (confirmed_run.1.1, confirmed_run.1.2, Ok (reply_of confirmed_run.2)).
Proof. by vm_compute. Qed.

Lemma confirmation_return_closes_turn_witness :
  process_confirmation str_scalar conv_proposed true (Some sample_handlers) []
  = (confirmed_run.1.1, confirmed_run.1.2, Ok (reply_of confirmed_run.2))
  /\ exists t,
       current_turn conv_proposed = Some t
       /\ current_turn confirmed_run.1.2 = None
       /\ state confirmed_run.1.2 = AWAITING_USER_INPUT
       /\ turns confirmed_run.1.2
          = turns conv_proposed
            ++ [with_executed
                  (PList (cr_executed_actions (reply_of confirmed_run.2)))
                  (with_confirmed true t)]
       /\ cr_confirmed (reply_of confirmed_run.2) = true
       /\ cr_conversation_state (reply_of confirmed_run.2)
          = ConversationState_value AWAITING_USER_INPUT
       /\ conversation_id confirmed_run.1.2 = conversation_id conv_proposed
       /\ metadata confirmed_run.1.2 = metadata conv_proposed.
Proof.
  split; [exact confirmed_run_returns|].
  exact (confirmation_return_closes_turn str_scalar conv_proposed true
           (Some sample_handlers) [] confirmed_run.1.1 confirmed_run.1.2
           (reply_of confirmed_run.2) confirmed_run_returns).
Defined.

Lemma second_confirmation_raises_witness :
  process_confirmation str_scalar conv_proposed true (Some sample_handlers) []
  = (confirmed_run.1.1, confirmed_run.1.2, Ok (reply_of confirmed_run.2))
  /\ forall conf' (action_handlers' :
                     option (gmap pystr (pyvalue -> list pyvalue -> list pyvalue * outcome)))
            w'',
       process_confirmation str_scalar confirmed_run.1.2 conf' action_handlers' w''
       = (w'', confirmed_run.1.2, Raise no_active_turn).
Proof.
  split; [exact confirmed_run_returns|].
  exact (second_confirmation_raises str_scalar conv_proposed true
           (Some sample_handlers) [] confirmed_run.1.1 confirmed_run.1.2
           (reply_of confirmed_run.2) confirmed_run_returns).
Defined.

Lemma conv_bad_batch_turn :
  current_turn conv_bad_batch
  = Some (with_proposed
            (PList ([stoicism_action] ++ PStr (py "create_concept") :: [link_action]))
            proposed_turn).
Proof. reflexivity. Qed.

Lemma non_mapping_action_aborts_batch_witness :
  current_turn conv_bad_batch
  = Some (with_proposed
            (PList ([stoicism_action] ++ PStr (py "create_concept") :: [link_action]))
            proposed_turn)
  /\ Forall is_dict [stoicism_action]
  /\ ~ is_dict (PStr (py "create_concept"))
  /\ exists w' records messages,
       dispatched str_scalar (Some sample_handlers) [] [stoicism_action]
         w' records messages
       /\ process_confirmation str_scalar conv_bad_batch true
            (Some sample_handlers) []
          = (w',
             with_state EXECUTING
               (with_current
                  (Some (with_confirmed true
                           (with_proposed
                              (PList ([stoicism_action]
                                      ++ PStr (py "create_concept") :: [link_action]))
                              proposed_turn)))
                  conv_bad_batch),
             Raise (not_a_mapping (PStr (py "create_concept")))).
Proof.
  assert (Forall is_dict [stoicism_action]) as Hd by (repeat constructor).
  assert (~ is_dict (PStr (py "create_concept"))) as Hn by (intros []).
  split; [exact conv_bad_batch_turn|]. split; [exact Hd|]. split; [exact Hn|].
  exact (non_mapping_action_aborts_batch str_scalar conv_bad_batch _
           [stoicism_action] (PStr (py "create_concept")) [link_action]
           (Some sample_handlers) [] conv_bad_batch_turn eq_refl Hd Hn).
Defined.

(** The sample of an aborted batch: the graph store was asked for the note
    before the call raised. *)
Example bad_batch_sample :
  (process_confirmation str_scalar conv_bad_batch true (Some sample_handlers) []).1.1
  = [stoicism_action]
  /\ (process_confirmation str_scalar conv_bad_batch true (Some sample_handlers) []).2
     = Raise (TypeError (py "'str' object is not a mapping")).
Proof. by vm_compute. Qed.

Lemma batch_succeeds_iff_all_executed_witness :
  current_turn conv_proposed = Some proposed_turn
  /\ proposed_actions proposed_turn = PList sample_actions
  /\ Forall is_dict sample_actions
  /\ process_confirmation str_scalar conv_proposed true (Some sample_handlers) []
     = (confirmed_run.1.1, confirmed_run.1.2, Ok (reply_of confirmed_run.2))
  /\ (cr_response (reply_of confirmed_run.2)
      = py "All actions were completed successfully."
      <-> Forall executed_status (cr_executed_actions (reply_of confirmed_run.2))).
Proof.
  assert (Forall is_dict sample_actions) as Hd by (repeat constructor).
  split; [reflexivity|]. split; [reflexivity|]. split; [exact Hd|].
  split; [exact confirmed_run_returns|].
  exact (batch_succeeds_iff_all_executed str_scalar conv_proposed proposed_turn
           sample_actions (Some sample_handlers) [] confirmed_run.1.1
           confirmed_run.1.2 (reply_of confirmed_run.2)
           eq_refl eq_refl Hd confirmed_run_returns).
Defined.

(** ** From a failed input to the confirmation *)

Section FlowProperties.

Variable json_loads : pystr -> option pyvalue.
Variable py_str : pyvalue -> pystr.
Variable py_format : pyvalue -> pystr -> res pystr.
Context {W : Type}.

(** A call of [process_user_input] that raised on the prompt has left its
    turn open, so a confirmation that follows is accepted. It dispatches
    nothing, since the turn proposes no action, and closes the turn with
    the user's answer and no response text; when the answer is a
    confirmation the reply says that all actions were completed. *)
Theorem failed_input_then_confirmation :
  forall ai_manager c input context h e answer
         (action_handlers : option (gmap pystr (pyvalue -> W -> W * outcome)))
         (w : W),
    py_format (PStr (py "name")) spec_category = Raise e ->
    let out := process_user_input json_loads py_format ai_manager c input context h in
    let closed :=
      {| user_input := Some input;
         ai_response := None;
         proposed_actions := PList [];
         confirmed := answer;
         executed_actions := PList [];
         timestamp := None |} in
    out.2 = Raise e
    /\ process_confirmation py_str out.1.2 answer action_handlers w
       = (w,
          with_state AWAITING_USER_INPUT
            (with_current None (with_turns (turns out.1.2 ++ [closed]) out.1.2)),
          Ok {| cr_confirmed := answer;
                cr_executed_actions := [];
                cr_response :=
                  if answer then py "All actions were completed successfully."
                  else py "Actions cancelled as requested.";
                cr_conversation_state :=
                  ConversationState_value AWAITING_USER_INPUT |}).
Proof.
  intros ai_manager c input context h e answer action_handlers w Hf out closed.
  unfold out.
  rewrite (process_user_input_prompt_refused json_loads py_format _ _ _ _ _ _ Hf).
  split; [done|]. cbn [fst snd].
  pose proof (start_new_turn_current input c) as Hc.
  destruct answer.
  - by rewrite (process_confirmation_confirmed py_str _ _ action_handlers w Hc).
  - by rewrite (process_confirmation_rejected py_str _ _ action_handlers w Hc).
Qed.

End FlowProperties.

Lemma failed_input_then_confirmation_witness :
  format_strict (PStr (py "name")) spec_category
  = Raise (ValueError (py "Invalid format specifier"))
  /\ let out :=
       process_user_input json_loads_core format_strict sample_client conv_fresh
         (py "Add a note") None ∅ in
     let closed :=
       {| user_input := Some (py "Add a note");
          ai_response := None;
          proposed_actions := PList [];
          confirmed := true;
          executed_actions := PList [];
          timestamp := None |} in
     out.2 = Raise (ValueError (py "Invalid format specifier"))
     /\ process_confirmation str_scalar out.1.2 true (Some sample_handlers) []
        = ([],
           with_state AWAITING_USER_INPUT
             (with_current None (with_turns (turns out.1.2 ++ [closed]) out.1.2)),
           Ok {| cr_confirmed := true;
                 cr_executed_actions := [];
                 cr_response := py "All actions were completed successfully.";
                 cr_conversation_state :=
                   ConversationState_value AWAITING_USER_INPUT |}).
Proof.
  split; [reflexivity|].
  exact (failed_input_then_confirmation json_loads_core str_scalar format_strict
           sample_client conv_fresh (py "Add a note") None ∅
           (ValueError (py "Invalid format specifier")) true
           (Some sample_handlers) [] eq_refl).
Defined.

(** ** Dictionaries of turns and conversations *)

Lemma state_of_value_of_state st :
  ConversationState_of_value (PStr (ConversationState_value st)) = Some st.
Proof. by destruct st. Qed.

Lemma or_empty_list_list v : list_valued v -> or_empty_list (Some v) = v.
Proof. destruct v as [| | | | |l|]; try done. by destruct l. Qed.

(** What [from_dict] makes of the dictionary of a turn. *)
Lemma turn_from_to_dict t :
  timestamp t <> Some PNone ->
  ConversationTurn_from_dict (ConversationTurn_to_dict t)
  = Some (with_executed (or_empty_list (Some (executed_actions t)))
            (with_proposed (or_empty_list (Some (proposed_actions t))) t)).
Proof.
  destruct t as [input response proposed conf executed ts]. simpl. intros Hts.
  unfold ConversationTurn_from_dict, ConversationTurn_to_dict,
    get_opt_str, get_bool, get_opt_value. simpl.
  destruct input, response; simpl; destruct ts as [[]|]; done.
Qed.

(** A turn comes back from its dictionary with its fields as they were,
    but for an action field that holds a false value other than the empty
    list ([None], [0], the empty string or dictionary), which comes back as
    the empty list; so a turn whose action fields are lists comes back as
    it was. *)
Theorem turn_dict_round_trip :
  forall t,
    timestamp t <> Some PNone ->
    ConversationTurn_from_dict (ConversationTurn_to_dict t)
    = Some (with_executed (or_empty_list (Some (executed_actions t)))
              (with_proposed (or_empty_list (Some (proposed_actions t))) t))
    /\ (list_valued (proposed_actions t) ->
        list_valued (executed_actions t) ->
        ConversationTurn_from_dict (ConversationTurn_to_dict t) = Some t).
Proof.
  intros t Hts. split; [by apply turn_from_to_dict|].
  intros Hp He. rewrite turn_from_to_dict by done.
  rewrite !or_empty_list_list by done. by destruct t.
Qed.

Lemma turn_restorable_round_trip t :
  turn_restorable t ->
  ConversationTurn_from_dict (ConversationTurn_to_dict t) = Some t.
Proof.
  intros (Hp & He & Hts). rewrite turn_from_to_dict by done.
  rewrite !or_empty_list_list by done. by destruct t.
Qed.

Lemma turns_from_to_dicts ts :
  Forall turn_restorable ts ->
  turns_from_values (map (fun t => PDict (ConversationTurn_to_dict t)) ts)
  = Some (Ok ts).
Proof.
  induction 1 as [|t ts Ht _ IH]; [done|].
  cbn [map turns_from_values turn_from_value].
  by rewrite (turn_restorable_round_trip t Ht), IH.
Qed.

Lemma to_dict_conversation_id c :
  dict_get (Conversation_to_dict c) (py "conversation_id")
  = Some (opt_str_value (conversation_id c)).
Proof. reflexivity. Qed.

Lemma to_dict_state c :
  dict_get (Conversation_to_dict c) (py "state")
  = Some (PStr (ConversationState_value (state c))).
Proof. reflexivity. Qed.

Lemma to_dict_turns c :
  dict_get (Conversation_to_dict c) (py "turns")
  = Some (PList (map (fun t => PDict (ConversationTurn_to_dict t)) (turns c))).
Proof. reflexivity. Qed.

Lemma to_dict_current_turn c :
  dict_get (Conversation_to_dict c) (py "current_turn")
  = Some match current_turn c with
         | Some t => PDict (ConversationTurn_to_dict t)
         | None => PNone
         end.
Proof. reflexivity. Qed.

Lemma to_dict_metadata c :
  dict_get (Conversation_to_dict c) (py "metadata") = Some (PDict (metadata c)).
Proof. reflexivity. Qed.

Section SerialisationProperties.

Variable py_repr : pyvalue -> pystr.

(** A conversation whose turns, closed and open, have lists as action
    fields comes back from its dictionary as it was: identity, state,
    history, open turn and metadata. *)
Theorem conversation_dict_round_trip :
  forall c,
    Forall turn_restorable (turns c) ->
    (forall t, current_turn c = Some t -> turn_restorable t) ->
    Conversation_from_dict py_repr (Conversation_to_dict c) = Some (Ok c).
Proof.
  intros c Hts Hcur.
  unfold Conversation_from_dict, get_opt_str.
  rewrite to_dict_conversation_id, to_dict_state, to_dict_turns,
    to_dict_current_turn, to_dict_metadata.
  assert (match opt_str_value (conversation_id c) with
          | PNone => Some None
          | PStr s => Some (Some s)
          | _ => None
          end = Some (conversation_id c)) as -> by (by destruct (conversation_id c)).
  cbn [from_option id]. rewrite state_of_value_of_state. cbn [py_iter].
  rewrite turns_from_to_dicts by done.
  destruct (current_turn c) as [t|] eqn:Ecur.
  - cbn [py_truthy turn_from_value ConversationTurn_to_dict].
    change (ConversationTurn_from_dict _)
      with (ConversationTurn_from_dict (ConversationTurn_to_dict t)).
    rewrite (turn_restorable_round_trip t (Hcur t eq_refl)).
    destruct c. simpl in *. by rewrite Ecur.
  - cbn [py_truthy]. destruct c. simpl in *. by rewrite Ecur.
Qed.

(** [from_dict] takes a default for every key that is missing, so the empty
    dictionary gives a new conversation; and a state that is not the value
    of a member of [ConversationState] makes it raise [ValueError],
    whatever the other entries hold. *)
Theorem from_dict_defaults_and_unknown_state :
  (forall data,
      dict_get data (py "conversation_id") = None ->
      dict_get data (py "state") = None ->
      dict_get data (py "turns") = None ->
      dict_get data (py "current_turn") = None ->
      dict_get data (py "metadata") = None ->
      Conversation_from_dict py_repr data = Some (Ok (Conversation_init None)))
  /\ (forall data id v,
         get_opt_str data (py "conversation_id") = Some id ->
         dict_get data (py "state") = Some v ->
         ConversationState_of_value v = None ->
         Conversation_from_dict py_repr data = Some (Raise (invalid_state py_repr v))).
Proof.
  split.
  - intros data Hid Hst Hts Hcur Hmeta.
    unfold Conversation_from_dict, get_opt_str.
    by rewrite Hid, Hst, Hts, Hcur, Hmeta.
  - intros data id v Hid Hst Hv. unfold Conversation_from_dict.
    rewrite Hid, Hst. simpl. by rewrite Hv.
Qed.

End SerialisationProperties.

Lemma turn_dict_round_trip_witness :
  timestamp zero_turn <> Some PNone
  /\ ConversationTurn_from_dict (ConversationTurn_to_dict zero_turn)
     = Some (with_executed (or_empty_list (Some (executed_actions zero_turn)))
               (with_proposed (or_empty_list (Some (proposed_actions zero_turn)))
                  zero_turn))
  /\ (list_valued (proposed_actions proposed_turn) ->
      list_valued (executed_actions proposed_turn) ->
      ConversationTurn_from_dict (ConversationTurn_to_dict proposed_turn)
      = Some proposed_turn).
Proof.
  assert (timestamp zero_turn <> Some PNone) as Hz by done.
  assert (timestamp proposed_turn <> Some PNone) as Hp by done.
  split; [exact Hz|].
  exact (conj (proj1 (turn_dict_round_trip zero_turn Hz))
              (proj2 (turn_dict_round_trip proposed_turn Hp))).
Defined.

(** The sample: a turn that proposed the number [0] comes back with the
    empty list. *)
Example zero_turn_sample :
  proposed_actions
    <$> ConversationTurn_from_dict (ConversationTurn_to_dict zero_turn)
  = Some (PList []).
Proof. reflexivity. Qed.

Lemma conv_resumed_restorable :
  Forall turn_restorable (turns conv_resumed)
  /\ forall t, current_turn conv_resumed = Some t -> turn_restorable t.
Proof.
  split.
  - repeat constructor; done.
  - intros t [= <-]. by repeat split.
Qed.

Lemma conversation_dict_round_trip_witness :
  Forall turn_restorable (turns conv_resumed)
  /\ (forall t, current_turn conv_resumed = Some t -> turn_restorable t)
  /\ Conversation_from_dict repr_plain (Conversation_to_dict conv_resumed)
     = Some (Ok conv_resumed).
Proof.
  split; [exact (proj1 conv_resumed_restorable)|].
  split; [exact (proj2 conv_resumed_restorable)|].
  exact (conversation_dict_round_trip repr_plain conv_resumed
           (proj1 conv_resumed_restorable) (proj2 conv_resumed_restorable)).
Defined.

Lemma from_dict_defaults_and_unknown_state_witness :
  Conversation_from_dict repr_plain [] = Some (Ok (Conversation_init None))
  /\ (get_opt_str paused_data (py "conversation_id") = Some None
      /\ dict_get paused_data (py "state") = Some (PStr (py "paused"))
      /\ ConversationState_of_value (PStr (py "paused")) = None
      /\ Conversation_from_dict repr_plain paused_data
         = Some (Raise (invalid_state repr_plain (PStr (py "paused"))))).
Proof.
  destruct (from_dict_defaults_and_unknown_state repr_plain) as [A B].
  split; [exact (A [] eq_refl eq_refl eq_refl eq_refl eq_refl)|].
  split; [reflexivity|]. split; [reflexivity|]. split; [reflexivity|].
  exact (B paused_data None (PStr (py "paused")) eq_refl eq_refl eq_refl).
Defined.

(** ** The registry of the controller *)

(** With an identity that is a non-empty string, [get_or_create_conversation]
    returns the conversation registered under it, or registers and returns
    a new one; either way the conversation is registered afterwards, a
    second call returns the same conversation and registry, and the entries
    of other identities are untouched. Without an identity, or with the
    empty string, the registry is left as it was. *)
Theorem registry_get_or_create :
  (forall active id,
      id <> [] ->
      let '(conversation, active') := get_or_create_conversation active (Some id) in
      active' !! id = Some conversation
      /\ get_or_create_conversation active' (Some id) = (conversation, active')
      /\ (forall known, active !! id = Some known ->
                        conversation = known /\ active' = active)
      /\ (active !! id = None -> conversation = Conversation_init (Some id))
      /\ forall other, other <> id -> active' !! other = active !! other)
  /\ (forall active id,
         id = None \/ id = Some [] ->
         get_or_create_conversation active id = (Conversation_init id, active)).
Proof.
  split.
  - intros active [|ch rest] Hne; [done|]. unfold get_or_create_conversation.
    destruct (active !! (ch :: rest)) as [known|] eqn:E.
    + rewrite E. split; [done|]. split; [done|].
      split; [by intros ? [= <-]|]. by split.
    + rewrite lookup_insert_eq. split; [done|]. split; [done|].
      split; [done|]. split; [done|].
      intros other Hother. by rewrite lookup_insert_ne.
  - by intros active id [->| ->].
Qed.

Lemma registry_get_or_create_witness :
  (py "c-2" <> []
   /\ let '(conversation, active') :=
        get_or_create_conversation sample_registry (Some (py "c-2")) in
      active' !! py "c-2" = Some conversation
      /\ get_or_create_conversation active' (Some (py "c-2"))
         = (conversation, active')
      /\ (forall known, sample_registry !! py "c-2" = Some known ->
                        conversation = known /\ active' = sample_registry)
      /\ (sample_registry !! py "c-2" = None ->
          conversation = Conversation_init (Some (py "c-2")))
      /\ forall other, other <> py "c-2" ->
                       active' !! other = sample_registry !! other)
  /\ ((@None pystr = None \/ @None pystr = Some [])
      /\ get_or_create_conversation sample_registry None
         = (Conversation_init None, sample_registry)).
Proof.
  destruct registry_get_or_create as [A B].
  assert (py "c-2" <> []) as Hne by done.
  split.
  - split; [exact Hne|]. exact (A sample_registry (py "c-2") Hne).
  - split; [by left|]. exact (B sample_registry None (or_introl eq_refl)).
Defined.

(** ** The reasoning-service client *)

Lemma history_step_roles st line :
  map fst (flush (history_step st line).1.1 (history_step st line).1.2
             (history_step st line).2)
  = map fst (flush st.1.1 st.1.2 st.2) ++ option_list (marker_role line).
Proof.
  destruct st as [[messages role] content]. unfold history_step, marker_role.
  destruct (starts_with (py "User: ") line).
  { simpl. by rewrite map_app. }
  destruct (starts_with (py "AI: ") line).
  { simpl. by rewrite map_app. }
  rewrite app_nil_r. destruct content as [|first content]; [done|].
  destruct role as [role|]; [|done]. simpl. by rewrite !map_app.
Qed.

Lemma history_loop_roles lines st :
  let st' := foldl history_step st lines in
  map fst (flush st'.1.1 st'.1.2 st'.2)
  = map fst (flush st.1.1 st.1.2 st.2) ++ omap marker_role lines.
Proof.
  revert st. induction lines as [|line lines IH]; intros st; simpl.
  - by rewrite app_nil_r.
  - rewrite IH, history_step_roles, <- app_assoc. f_equal.
    by destruct (marker_role line).
Qed.

(** The parser of a history makes one message for each line that starts
    with ["User: "] or ["AI: "], in the order of the lines, with the role
    [user] or [assistant]; every other line makes no message of its own. *)
Theorem history_messages_follow_markers :
  forall messages lines,
    map fst (history_messages messages lines)
    = map fst messages ++ omap marker_role lines.
Proof.
  intros messages lines. unfold history_messages.
  pose proof (history_loop_roles lines (messages, None, [])) as H.
  destruct (foldl history_step (messages, None, []) lines) as [[ms role] content].
  exact H.
Qed.

Section ManagerProperties.

Variable json_loads : pystr -> option pyvalue.
Variable py_str : pyvalue -> pystr.
Variable py_upper : pystr -> pystr.
Variable create : list message -> bool -> res pystr.

Local Abbreviation build := (_build_prompt py_str py_upper).
Local Abbreviation ask := (query json_loads py_str py_upper create).

Lemma without_history_only_history items :
  Forall (fun item => is_history_item item = true) items ->
  without_history items = Ok [].
Proof.
  induction 1 as [|item items Hi _ IH]; [done|].
  destruct item as [| | | | | |d]; try done. simpl in *. by rewrite IH, Hi.
Qed.

(** Without a context, with an empty one, or with one that holds nothing
    but the conversation history, [_build_prompt] returns the prompt as it
    is; also when a structured output is asked for, so that the request
    for JSON is then not part of the prompt. *)
Theorem build_prompt_without_context :
  forall prompt context structured_output,
    context = None
    \/ (exists items, context = Some items
                      /\ Forall (fun item => is_history_item item = true) items) ->
    build prompt context structured_output = Ok prompt.
Proof.
  intros prompt context structured_output [->|(items & -> & Hh)]; [done|].
  unfold _build_prompt. destruct items as [|item items]; [done|].
  by rewrite without_history_only_history.
Qed.

Lemma without_history_filter items :
  Forall is_dict items ->
  without_history (filter (fun item => is_history_item item = false) items)
  = without_history items.
Proof.
  induction 1 as [|item items Hi _ IH]; [done|].
  destruct item as [| | | | | |d]; try done.
  rewrite filter_cons. simpl.
  destruct (is_str (dict_get d (py "type")) (py "conversation_history")) eqn:E.
  - rewrite decide_False by done. rewrite IH.
    by destruct (without_history items).
  - rewrite decide_True by done. simpl. by rewrite IH, E.
Qed.

Lemma without_history_dicts items :
  Forall is_dict items -> exists kept, without_history items = Ok kept.
Proof.
  induction 1 as [|item items Hi _ [kept IH]]; [by exists []|].
  destruct item as [| | | | | |d]; try done. simpl. rewrite IH. simpl. eauto.
Qed.

(** [_build_prompt] on a context that was given: the filter, then the
    text. *)
Lemma build_prompt_given prompt items structured_output :
  build prompt (Some items) structured_output
  = res_bind (without_history items)
      (fun filtered_context =>
         match filtered_context with
         | [] => Ok prompt
         | _ :: _ =>
             do entries <- context_entries py_str py_upper filtered_context;
             Ok ((nl ++ nl ++ py "### CONTEXT:" ++ nl ++ entries)
                 ++ nl ++ nl ++ py "### QUERY:" ++ nl ++ prompt
                 ++ (if structured_output then
                       nl ++ nl ++ py "### OUTPUT FORMAT:" ++ nl
                       ++ py "Provide your response in valid JSON format." ++ nl
                     else []))
         end).
Proof. by destruct items. Qed.

(** [_build_prompt] leaves the entries of the conversation history out:
    for a context of dictionaries, the prompt built is the one built for the
    context without them. *)
Theorem build_prompt_ignores_history :
  forall prompt items structured_output,
    Forall is_dict items ->
    build prompt (Some items) structured_output
    = build prompt
        (Some (filter (fun item => is_history_item item = false) items))
        structured_output.
Proof.
  intros prompt items structured_output Hd.
  rewrite !build_prompt_given. by rewrite without_history_filter.
Qed.

Lemma without_history_raises dicts item rest :
  Forall is_dict dicts -> ~ is_dict item ->
  without_history (dicts ++ item :: rest) = Raise (no_get item).
Proof.
  intros Hd Hn. induction Hd as [|d dicts Hi _ IH]; simpl.
  - by destruct item.
  - destruct d as [| | | | | |d]; try done. by rewrite IH.
Qed.

(** A context item that is not a dictionary makes [query] raise: the
    prompt is built before the [try] block, so the exception of the item's
    missing [get] is not turned into the error result. *)
Theorem query_raises_on_non_mapping_item :
  forall prompt dicts item rest prompt_type structured_output,
    Forall is_dict dicts ->
    ~ is_dict item ->
    ask prompt (Some (dicts ++ item :: rest)) prompt_type structured_output
    = Raise (no_get item).
Proof.
  intros prompt dicts item rest prompt_type structured_output Hd Hn.
  unfold query. rewrite build_prompt_given.
  by rewrite (without_history_raises dicts item rest Hd Hn).
Qed.

(** What the [try] block returns: the answer of the service under
    ["response"], and no ["error"]. *)
Lemma query_attempt_result full_prompt context prompt_type structured_output d :
  query_attempt json_loads create full_prompt context prompt_type structured_output
  = Ok d ->
  (exists content, dict_get d (py "response") = Some (PStr content))
  /\ dict_get d (py "error") = None.
Proof.
  unfold query_attempt.
  destruct (match context with
            | Some (item :: rest) => context_messages _ (item :: rest)
            | _ => Ok _
            end) as [messages|e]; [|done]. simpl.
  destruct (create _ _) as [content|e]; [|done]. simpl.
  destruct (_extract_sources content context) as [sources|e]; [|done]. simpl.
  destruct structured_output; [destruct (json_loads content)|];
    intros [= <-]; split; eauto.
Qed.

(** [query] raises only where [_build_prompt] does; whatever else goes
    wrong, it returns a dictionary. What it returns always has a text under
    ["response"], and either no ["error"] entry or the message of the
    exception there, with ["An error occurred: "] and that message as the
    response. *)
Theorem query_returns_response :
  forall prompt context prompt_type structured_output,
    (forall e,
        ask prompt context prompt_type structured_output = Raise e
        <-> build prompt context structured_output = Raise e)
    /\ (forall d,
           ask prompt context prompt_type structured_output = Ok d ->
           exists text,
             dict_get d (py "response") = Some (PStr text)
             /\ (dict_get d (py "error") = None
                 \/ exists msg,
                      dict_get d (py "error") = Some (PStr msg)
                      /\ text = py "An error occurred: " ++ msg)).
Proof.
  intros prompt context prompt_type structured_output. unfold query.
  destruct (build prompt context structured_output) as [full_prompt|e0]; simpl.
  - destruct (query_attempt _ _ _ _ _ _) as [result|e1] eqn:E.
    + split; [intros e; split; intros [=]|]. intros d [= <-].
      destruct (query_attempt_result _ _ _ _ _ E) as ((content & Hc) & He).
      exists content. by split; [|left].
    + split; [intros e; split; intros [=]|]. intros d [= <-].
      eexists. split; [reflexivity|]. right. by eexists.
  - split; [intros e; split; intros [= ->]; reflexivity|]. intros d [=].
Qed.

End ManagerProperties.

(** ** The history, rendered and read back *)

Lemma lstrip_app x y : lstrip x <> [] -> lstrip (x ++ y) = lstrip x ++ y.
Proof.
  induction x as [|c x IH]; [done|]. simpl.
  destruct (isspace c); [apply IH | done].
Qed.

Lemma lstrip_suffix x : exists k, x = k ++ lstrip x.
Proof.
  induction x as [|c x [k IH]]; [by exists []|]. simpl.
  destruct (isspace c); [|by exists []].
  exists (c :: k). simpl. by rewrite <- IH.
Qed.

(** [rstrip] keeps a prefix of the text. *)
Lemma rstrip_prefix s : exists k, s = rstrip s ++ k.
Proof.
  unfold rstrip. destruct (lstrip_suffix (rev s)) as [k Hk].
  exists (rev k). rewrite <- rev_app_distr, <- Hk. by rewrite rev_involutive.
Qed.

Lemma rstrip_before_newline a s :
  rstrip s <> [] -> rstrip (a ++ s ++ nl) = a ++ rstrip s.
Proof.
  unfold rstrip, nl. intros Hne.
  assert (lstrip (rev s) <> []) as Hl by (intros E; by rewrite E in Hne).
  rewrite !rev_app_distr. simpl.
  rewrite lstrip_app by done. by rewrite rev_app_distr, rev_involutive.
Qed.

Lemma split_on_absent sep s : sep ∉ s -> split_on sep s = [s].
Proof.
  induction s as [|c s IH]; [done|]. intros Hn.
  apply not_elem_of_cons in Hn as [Hc Hs]. simpl.
  assert ((c =? sep)%N = false) as -> by (apply N.eqb_neq; congruence).
  by rewrite IH.
Qed.

Lemma split_on_first sep a b :
  sep ∉ a -> split_on sep (a ++ sep :: b) = a :: split_on sep b.
Proof.
  induction a as [|c a IH]; intros Hn; simpl.
  - by rewrite N.eqb_refl.
  - apply not_elem_of_cons in Hn as [Hc Ha].
    assert ((c =? sep)%N = false) as -> by (apply N.eqb_neq; congruence).
    by rewrite IH.
Qed.

(** The history of a first turn, as [get_context_for_ai] renders it and
    [query] reads it back, for an input of one line: one message with the
    role [user], whose content is the input without the whitespace at its
    end. *)
Theorem first_input_becomes_user_message :
  forall id input messages,
    10%N ∉ input ->
    rstrip input <> [] ->
    context_messages messages
      [history_item
         (get_context_for_ai (start_new_turn input (Conversation_init id)) 5)]
    = Ok (messages ++ [(py "user", rstrip input)]).
Proof.
  intros id input messages Hnl Hne.
  assert (input <> []) as Hin by (by intros ->).
  assert (get_context_for_ai (start_new_turn input (Conversation_init id)) 5
          = (py "Current Turn:" ++ nl ++ py "User: ") ++ input ++ nl) as ->.
  { unfold get_context_for_ai. rewrite start_new_turn_current.
    cbn [user_input ConversationTurn_init]. rewrite bool_decide_eq_false_2 by done.
    rewrite start_new_turn_turns. by simpl. }
  unfold history_item.
  cbn [context_messages dict_get is_str]. rewrite decide_True by done.
  cbn [is_str]. rewrite bool_decide_eq_true_2 by done.
  unfold history_lines. cbn [dict_get]. rewrite decide_False by done.
  rewrite decide_True by done.
  assert (strip ((py "Current Turn:" ++ nl ++ py "User: ") ++ input ++ nl)
          = py "Current Turn:" ++ nl ++ (py "User: " ++ rstrip input)) as ->.
  { unfold strip.
    change (lstrip ((py "Current Turn:" ++ nl ++ py "User: ") ++ input ++ nl))
      with ((py "Current Turn:" ++ nl ++ py "User: ") ++ input ++ nl).
    rewrite rstrip_before_newline by done. by rewrite <- !app_assoc. }
  assert (10%N ∉ py "User: " ++ rstrip input) as Hline.
  { destruct (rstrip_prefix input) as [k Hk]. rewrite Hk in Hnl.
    rewrite not_elem_of_app in Hnl. destruct Hnl as [Hr _].
    rewrite not_elem_of_app. split; [|done].
    apply (bool_decide_unpack _). by vm_compute. }
  unfold nl. change ([10%N] ++ ?x) with (10%N :: x).
  rewrite split_on_first by (apply (bool_decide_unpack _); by vm_compute).
  rewrite split_on_absent by done.
  simpl. done.
Qed.

Lemma build_prompt_without_context_witness :
  (Some [history_item (get_context_for_ai conv_busy 5)] = None
   \/ exists items,
        Some [history_item (get_context_for_ai conv_busy 5)] = Some items
        /\ Forall (fun item => is_history_item item = true) items)
  /\ _build_prompt str_scalar upper_ascii (py "Which notes are new?")
       (Some [history_item (get_context_for_ai conv_busy 5)]) true
     = Ok (py "Which notes are new?").
Proof.
  assert (Some [history_item (get_context_for_ai conv_busy 5)] = None
          \/ exists items,
               Some [history_item (get_context_for_ai conv_busy 5)] = Some items
               /\ Forall (fun item => is_history_item item = true) items) as H.
  { right. eexists. split; [reflexivity|]. by repeat constructor. }
  split; [exact H|].
  exact (build_prompt_without_context str_scalar upper_ascii
           (py "Which notes are new?")
           (Some [history_item (get_context_for_ai conv_busy 5)]) true H).
Defined.

Lemma build_prompt_ignores_history_witness :
  Forall is_dict sample_context
  /\ _build_prompt str_scalar upper_ascii (py "Which notes are new?")
       (Some sample_context) false
     = _build_prompt str_scalar upper_ascii (py "Which notes are new?")
         (Some (filter (fun item => is_history_item item = false) sample_context))
         false.
Proof.
  assert (Forall is_dict sample_context) as Hd by (repeat constructor).
  split; [exact Hd|].
  exact (build_prompt_ignores_history str_scalar upper_ascii
           (py "Which notes are new?") sample_context false Hd).
Defined.

Lemma query_raises_on_non_mapping_item_witness :
  Forall is_dict [note_item]
  /\ ~ is_dict (PStr (py "On virtue"))
  /\ query json_loads_core str_scalar upper_ascii (echo_service (py "None."))
       (py "Which notes are new?")
       (Some ([note_item] ++ PStr (py "On virtue") :: [])) (py "general") false
     = Raise (no_get (PStr (py "On virtue"))).
Proof.
  assert (Forall is_dict [note_item]) as Hd by (repeat constructor).
  assert (~ is_dict (PStr (py "On virtue"))) as Hn by (intros []).
  split; [exact Hd|]. split; [exact Hn|].
  exact (query_raises_on_non_mapping_item json_loads_core str_scalar upper_ascii
           (echo_service (py "None.")) (py "Which notes are new?")
           [note_item] (PStr (py "On virtue")) [] (py "general") false Hd Hn).
Defined.

Lemma query_returns_response_witness :
  query json_loads_core str_scalar upper_ascii unreachable_service
    (py "Which notes are new?") (Some sample_context) (py "general") false
  = Ok (error_dict connection_error)
  /\ exists text,
       dict_get (error_dict connection_error) (py "response") = Some (PStr text)
       /\ (dict_get (error_dict connection_error) (py "error") = None
           \/ exists msg,
                dict_get (error_dict connection_error) (py "error") = Some (PStr msg)
                /\ text = py "An error occurred: " ++ msg).
Proof.
  assert (query json_loads_core str_scalar upper_ascii unreachable_service
            (py "Which notes are new?") (Some sample_context) (py "general") false
          = Ok (error_dict connection_error)) as H by (by vm_compute).
  split; [exact H|].
  exact (proj2 (query_returns_response json_loads_core str_scalar upper_ascii
                  unreachable_service (py "Which notes are new?")
                  (Some sample_context) (py "general") false)
           (error_dict connection_error) H).
Defined.

Lemma first_input_becomes_user_message_witness :
  (10%N ∉ py "Add a note  ")
  /\ rstrip (py "Add a note  ") <> []
  /\ context_messages [(py "system", general_prompt)]
       [history_item
          (get_context_for_ai
             (start_new_turn (py "Add a note  ") (Conversation_init None)) 5)]
     = Ok ([(py "system", general_prompt)]
           ++ [(py "user", rstrip (py "Add a note  "))]).
Proof.
  assert (10%N ∉ py "Add a note  ") as Hnl
    by (apply (bool_decide_unpack _); by vm_compute).
  assert (rstrip (py "Add a note  ") <> []) as Hne by done.
  split; [exact Hnl|]. split; [exact Hne|].
  exact (first_input_becomes_user_message None (py "Add a note  ")
           [(py "system", general_prompt)] Hnl Hne).
Defined.

(** ** The conversation routes *)

Section RouteProperties.

Variable json_loads : pystr -> option pyvalue.
Variable py_str : pyvalue -> pystr.
Variable py_format : pyvalue -> pystr -> res pystr.
Context {W : Type}.
Variable graph_manager : GraphManager W.

Local Abbreviation input_route := (route_process_user_input json_loads py_format).
Local Abbreviation confirm_route := (route_process_confirmation py_str graph_manager).
Local Abbreviation handlers := (route_handlers graph_manager).

(** Ending a registered conversation removes it and nothing else: the
    other conversations stay registered as they were, and from then on every
    route answers 404 for its identity and changes neither the registry nor
    the graph store. *)
Theorem ended_conversation_is_gone :
  forall active conversation_id,
    is_Some (active !! conversation_id) ->
    let ended := route_end_conversation active conversation_id in
    ended.2 = Replied [ (py "conversation_id", PStr conversation_id);
                        (py "status", PStr (py "ended")) ]
    /\ ended.1 !! conversation_id = None
    /\ (forall other, other <> conversation_id ->
                      ended.1 !! other = active !! other)
    /\ (forall ai_manager body,
           input_route ai_manager ended.1 conversation_id body
           = Some (ended.1, not_found conversation_id))
    /\ (forall confirmation (w : W),
           confirm_route ended.1 conversation_id confirmation w
           = (ended.1, w, not_found conversation_id))
    /\ route_get_conversation ended.1 conversation_id = not_found conversation_id
    /\ route_end_conversation ended.1 conversation_id
       = (ended.1, not_found conversation_id).
Proof.
  intros active conversation_id [conversation Hc] ended.
  unfold ended, route_end_conversation. rewrite Hc. simpl.
  assert (delete conversation_id active !! conversation_id = None) as Hgone
    by apply lookup_delete_eq.
  split; [done|]. split; [done|].
  split; [intros other Hne; by apply lookup_delete_ne|].
  split; [|split; [|split]].
  - intros ai_manager body. unfold route_process_user_input. by rewrite Hgone.
  - intros confirmation w. unfold route_process_confirmation. by rewrite Hgone.
  - unfold route_get_conversation. by rewrite Hgone.
  - by rewrite Hgone.
Qed.

(** A confirmation request without the ["confirmed"] entry is a rejection:
    the open turn is closed as not confirmed, the graph store is not
    touched, and the reply is the one of a cancelled batch. *)
Theorem confirmation_defaults_to_rejection :
  forall active conversation_id conversation t confirmation (w : W),
    active !! conversation_id = Some conversation ->
    current_turn conversation = Some t ->
    confirmation !! py "confirmed" = None ->
    confirm_route active conversation_id confirmation w
    = (<[conversation_id :=
           with_state AWAITING_USER_INPUT
             (with_current None
                (with_turns (turns conversation ++ [with_confirmed false t])
                   conversation))]> active,
       w,
       Replied
         [ (py "conversation_id", PStr conversation_id);
           (py "confirmed", PBool false);
           (py "response", PStr (py "Actions cancelled as requested."));
           (py "executed_actions", PList []);
           (py "conversation_state",
            PStr (ConversationState_value AWAITING_USER_INPUT)) ]).
Proof.
  intros active conversation_id conversation t confirmation w Ha Hc Hk.
  unfold route_process_confirmation. rewrite Ha, Hk. cbn [from_option id].
  by rewrite (process_confirmation_rejected py_str conversation t).
Qed.

(** An input request for a registered conversation, with a text in its
    body, does not reply: the exception [format] raises on the prompt
    leaves the route. The registered conversation has by then taken the text
    as a new open turn, after the turn that was open, if any, went to the
    history; the [GET] route shows it in state [analyzing] with a current
    turn. *)
Theorem input_request_fails_with_open_turn :
  forall ai_manager active conversation_id conversation body input e,
    active !! conversation_id = Some conversation ->
    dict_get body (py "text") = Some (PStr input) ->
    py_format (PStr (py "name")) spec_category = Raise e ->
    let after := <[conversation_id := start_new_turn input conversation]> active in
    input_route ai_manager active conversation_id body = Some (after, Failed e)
    /\ route_get_conversation after conversation_id
       = Replied
           [ (py "conversation_id", PStr conversation_id);
             (py "state", PStr (ConversationState_value ANALYZING));
             (py "turns",
              PInt (Z.of_nat
                      (length (turns conversation)
                       + match current_turn conversation with
                         | Some _ => 1
                         | None => 0
                         end)));
             (py "has_current_turn", PBool true) ].
Proof.
  intros ai_manager active conversation_id conversation body input e Ha Hb Hf after.
  split.
  - unfold route_process_user_input. rewrite Ha, Hb.
    destruct (alloc ∅ []) as [context h].
    by rewrite (process_user_input_prompt_refused json_loads py_format _ _ _ _ _ _ Hf).
  - unfold route_get_conversation, after. rewrite lookup_insert_eq.
    rewrite start_new_turn_state, start_new_turn_current, start_new_turn_turns.
    rewrite length_app. by destruct (current_turn conversation).
Qed.

Lemma route_handlers_relationship :
  handler_for (Some handlers) (py "create_relationship")
  = Some (awaited (handle_create_relationship graph_manager)).
Proof. reflexivity. Qed.

Lemma route_handlers_note :
  handler_for (Some handlers) (py "create_note")
  = Some (awaited (handle_create_note graph_manager)).
Proof. reflexivity. Qed.

(** A [create_relationship] action dispatched with the handlers of the
    route is recorded as executed, with [created: True] in its result,
    whenever the call to the graph store returns, whatever it returns (the
    empty dictionary of a relationship that was not made included); the
    fields the action lacks take their defaults. *)
Theorem relationship_action_reported_created :
  forall d (w w' : W) made,
    action_type_of d = PStr (py "create_relationship") ->
    gm_create_relationship graph_manager
      (default (PStr []) (dict_get d (py "source")))
      (default (PStr []) (dict_get d (py "target")))
      (default (PStr (py "RELATES_TO")) (dict_get d (py "relationship_type")))
      (Some (default (PDict []) (dict_get d (py "properties")))) w
    = (w', Ok made) ->
    dispatch py_str (Some handlers) (PDict d) w
    = (w',
       Ok (executed_record d
             (PDict [ (py "source_id", default (PStr []) (dict_get d (py "source")));
                      (py "target_id", default (PStr []) (dict_get d (py "target")));
                      (py "created", PBool true) ]),
           None)).
Proof.
  intros d w w' made Ht Hg.
  rewrite (dispatch_calls_handler py_str (Some handlers) d _ _ w Ht
             route_handlers_relationship).
  unfold awaited, handle_create_relationship. by rewrite Hg.
Qed.

(** A [create_note] action without concepts for which the graph store
    returns a note without an ["id"] is recorded as failed, with the text
    of the [KeyError] as its error; the graph store stays as the call that
    made the note left it. *)
Theorem note_without_id_fails_after_creation :
  forall d (w w' : W) note,
    action_type_of d = PStr (py "create_note") ->
    dict_get d (py "concepts") = None ->
    gm_create_note graph_manager (default (PStr []) (dict_get d (py "content"))) w
    = (w', Ok note) ->
    dict_get note (py "id") = None ->
    dispatch py_str (Some handlers) (PDict d) w
    = (w',
       Ok (failed_record d (py "'id'"),
           Some (py "Error executing create_note action: 'id'"))).
Proof.
  intros d w w' note Ht Hc Hg Hid.
  rewrite (dispatch_calls_handler py_str (Some handlers) d _ _ w Ht
             route_handlers_note).
  unfold awaited, handle_create_note. rewrite Hg, Hc. simpl. by rewrite Hid.
Qed.

End RouteProperties.

Lemma ended_conversation_is_gone_witness :
  is_Some (sample_registry !! py "c-1")
  /\ let ended := route_end_conversation sample_registry (py "c-1") in
     ended.2 = Replied [ (py "conversation_id", PStr (py "c-1"));
                         (py "status", PStr (py "ended")) ]
     /\ ended.1 !! py "c-1" = None
     /\ (forall other, other <> py "c-1" ->
                       ended.1 !! other = sample_registry !! other)
     /\ (forall ai_manager body,
            route_process_user_input json_loads_core format_strict ai_manager
              ended.1 (py "c-1") body
            = Some (ended.1, not_found (py "c-1")))
     /\ (forall confirmation (w : list pyvalue),
            route_process_confirmation str_scalar sample_graph ended.1
              (py "c-1") confirmation w
            = (ended.1, w, not_found (py "c-1")))
     /\ route_get_conversation ended.1 (py "c-1") = not_found (py "c-1")
     /\ route_end_conversation ended.1 (py "c-1")
        = (ended.1, not_found (py "c-1")).
Proof.
  assert (is_Some (sample_registry !! py "c-1")) as H by (by eexists).
  split; [exact H|].
  exact (ended_conversation_is_gone json_loads_core str_scalar format_strict
           sample_graph sample_registry (py "c-1") H).
Defined.

Lemma input_request_fails_with_open_turn_witness :
  sample_registry !! py "c-1" = Some conv_proposed
  /\ dict_get [ (py "text", PStr (py "Add a note")) ] (py "text")
     = Some (PStr (py "Add a note"))
  /\ format_strict (PStr (py "name")) spec_category
     = Raise (ValueError (py "Invalid format specifier"))
  /\ let after :=
       <[py "c-1" := start_new_turn (py "Add a note") conv_proposed]>
         sample_registry in
     route_process_user_input json_loads_core format_strict sample_client
       sample_registry (py "c-1") [ (py "text", PStr (py "Add a note")) ]
     = Some (after, Failed (ValueError (py "Invalid format specifier")))
     /\ route_get_conversation after (py "c-1")
        = Replied
            [ (py "conversation_id", PStr (py "c-1"));
              (py "state", PStr (ConversationState_value ANALYZING));
              (py "turns",
               PInt (Z.of_nat
                       (length (turns conv_proposed)
                        + match current_turn conv_proposed with
                          | Some _ => 1
                          | None => 0
                          end)));
              (py "has_current_turn", PBool true) ].
Proof.
  split; [reflexivity|]. split; [reflexivity|]. split; [reflexivity|].
  exact (input_request_fails_with_open_turn json_loads_core format_strict
           sample_client sample_registry (py "c-1") conv_proposed
           [ (py "text", PStr (py "Add a note")) ] (py "Add a note")
           (ValueError (py "Invalid format specifier")) eq_refl eq_refl eq_refl).
Defined.

Lemma confirmation_defaults_to_rejection_witness :
  sample_registry !! py "c-1" = Some conv_proposed
  /\ current_turn conv_proposed = Some proposed_turn
  /\ (∅ : gmap pystr bool) !! py "confirmed" = None
  /\ route_process_confirmation str_scalar sample_graph sample_registry
       (py "c-1") ∅ []
     = (<[py "c-1" :=
            with_state AWAITING_USER_INPUT
              (with_current None
                 (with_turns
                    (turns conv_proposed ++ [with_confirmed false proposed_turn])
                    conv_proposed))]> sample_registry,
        [],
        Replied
          [ (py "conversation_id", PStr (py "c-1"));
            (py "confirmed", PBool false);
            (py "response", PStr (py "Actions cancelled as requested."));
            (py "executed_actions", PList []);
            (py "conversation_state",
             PStr (ConversationState_value AWAITING_USER_INPUT)) ]).
Proof.
  split; [reflexivity|]. split; [reflexivity|]. split; [reflexivity|].
  exact (confirmation_defaults_to_rejection str_scalar sample_graph
           sample_registry (py "c-1") conv_proposed proposed_turn ∅ []
           eq_refl eq_refl eq_refl).
Defined.

Lemma relationship_action_reported_created_witness :
  action_type_of relationship_fields = PStr (py "create_relationship")
  /\ gm_create_relationship sample_graph
       (default (PStr []) (dict_get relationship_fields (py "source")))
       (default (PStr []) (dict_get relationship_fields (py "target")))
       (default (PStr (py "RELATES_TO"))
          (dict_get relationship_fields (py "relationship_type")))
       (Some (default (PDict []) (dict_get relationship_fields (py "properties"))))
       []
     = ([PList [PStr (py "n1"); PStr []; PStr (py "RELATES_TO")]], Ok [])
  /\ dispatch str_scalar (Some (route_handlers sample_graph))
       (PDict relationship_fields) []
     = ([PList [PStr (py "n1"); PStr []; PStr (py "RELATES_TO")]],
        Ok (executed_record relationship_fields
              (PDict [ (py "source_id",
                        default (PStr []) (dict_get relationship_fields (py "source")));
                       (py "target_id",
                        default (PStr []) (dict_get relationship_fields (py "target")));
                       (py "created", PBool true) ]),
            None)).
Proof.
  split; [reflexivity|]. split; [reflexivity|].
  exact (relationship_action_reported_created str_scalar sample_graph
           relationship_fields [] _ [] eq_refl eq_refl).
Defined.

Lemma note_without_id_fails_after_creation_witness :
  action_type_of stoicism_fields = PStr (py "create_note")
  /\ dict_get stoicism_fields (py "concepts") = None
  /\ gm_create_note sample_graph
       (default (PStr []) (dict_get stoicism_fields (py "content"))) []
     = ([PStr (py "stoicism")], Ok [])
  /\ dict_get [] (py "id") = None
  /\ dispatch str_scalar (Some (route_handlers sample_graph))
       (PDict stoicism_fields) []
     = ([PStr (py "stoicism")],
        Ok (failed_record stoicism_fields (py "'id'"),
            Some (py "Error executing create_note action: 'id'"))).
Proof.
  split; [reflexivity|]. split; [reflexivity|]. split; [reflexivity|].
  split; [reflexivity|].
  exact (note_without_id_fails_after_creation str_scalar sample_graph
           stoicism_fields [] _ [] eq_refl eq_refl eq_refl eq_refl).
Defined.
